(** * DAEDisaggregator (src/DAE/daedisaggregator.py)

    A shallow embedding of the denoising-autoencoder disaggregator: the
    normaliser, the windower (padding and reshaping into batches), the
    chunk-level entry points [train_on_chunk] and [disaggregate_chunk], the
    loops [train] and [disaggregate], and [import_model] / [export_model].

    - Readings are IEEE-754 binary floats, modelled with the Standard
      Library's [spec_float] at a format [prec]/[emax] (binary32 for nilmtk's
      float32 chunks, binary64 for NumPy's default).
    - A NumPy array is its flat buffer (C order) together with its shape.
    - A pandas Series is a list of (timestamp, reading) rows with a name.
    - Series are Python objects: they live in a store and are passed by
      reference, so that [fillna(0, inplace=True)] is a store update.
    - Python exceptions are values of [exn]; a raising computation keeps the
      store updates made before the raise.
    - The Keras model is a black box: [fit] and [predict] are parameters of
      the development; saving and loading go through a map of HDF5 files. *)

From Stdlib Require Import ZArith QArith Lia Bool Sorted.
From Stdlib Require Import Floats.SpecFloat.
From stdpp Require Import gmap strings list pretty.

Local Open Scope Z_scope.

(** ** Exceptions and the result monad *)

Inductive exn :=
| ZeroDivisionError | ValueError | TypeError | AttributeError
| IndexError | KeyError | StopIteration | OSError | ReferenceError.

Inductive result (A : Type) :=
| Ok (a : A)
| Raise (e : exn).
Arguments Ok {A} a.
Arguments Raise {A} e.

#[global] Instance result_ret : MRet result := @Ok.
#[global] Instance result_bind : MBind result :=
  λ A B f r, match r with Ok a => f a | Raise e => Raise e end.

(** ** Floating-point readings *)

Abbreviation float := spec_float.

Definition isnan (x : float) : bool :=
  match x with S754_nan => true | _ => false end.

(** The float [0.0] that [fillna(0)], [np.zeros] and the clip write. *)
Definition fzero : float := S754_zero false.

(** ** Python integer arithmetic *)

(** [a % b]: the sign of the divisor, as [Z.modulo]; raises on [b = 0]. *)
Definition py_mod (a b : Z) : result Z :=
  if b =? 0 then Raise ZeroDivisionError else Ok (a mod b).

(** [int(a / b)] for integers [a], [b] (true division followed by
    truncation), as line 113 has it. *)
Definition py_int_truediv (a b : Z) : result Z :=
  if b =? 0 then Raise ZeroDivisionError else Ok (Z.quot a b).

(** ** NumPy arrays *)

Record ndarray := mk_ndarray { shape : list Z; data : list float }.

Definition np_zeros (k : Z) : result ndarray :=
  if k <? 0 then Raise ValueError
  else Ok (mk_ndarray [k] (replicate (Z.to_nat k) fzero)).

(** [np.append(values, arr)]: both flattened, one-dimensional result. *)
Definition np_append (vals : list float) (arr : ndarray) : ndarray :=
  let flat := vals ++ data arr in
  mk_ndarray [Z.of_nat (length flat)] flat.

(** [len(a)] of a one-dimensional array. *)
Definition np_len (a : ndarray) : Z := Z.of_nat (length (data a)).

Definition prod_shape (sh : list Z) : Z := foldr Z.mul 1 sh.

(** [np.reshape(a, newshape)]: the buffer is kept, the shape replaced; the
    sizes must agree and no dimension may be negative. *)
Definition np_reshape (a : ndarray) (newshape : list Z) : result ndarray :=
  if forallb (Z.leb 0) newshape && (prod_shape newshape =? np_len a)
  then Ok (mk_ndarray newshape (data a))
  else Raise ValueError.

(** [a[i][j][k]] of a three-dimensional array in C order. *)
Definition item3 (a : ndarray) (i j k : Z) : option float :=
  match shape a with
  | [d0; d1; d2] =>
      if (0 <=? i) && (i <? d0) && (0 <=? j) && (j <? d1)
         && (0 <=? k) && (k <? d2)
      then data a !! Z.to_nat ((i * d1 + j) * d2 + k)
      else None
  | _ => None
  end.

(** ** The windower (lines 109-114 and 195-197) *)

(** [additional = s - (n % s)]. *)
Definition additional (s n : Z) : result Z :=
  r ← py_mod n s; Ok (s - r).

(** The statements with which [train_on_chunk] builds a batch from [n] and
    a sequence of values (lines 109-113): the padding amount,
    [np.append(values, np.zeros(additional))] and the reshape to
    [(int(len / s), s, 1)].  [disaggregate_chunk] has the first two as they
    are here (lines 195-196) and the reshape without the [int()]
    (line 197). *)
Definition create_array_of_batches (s n : Z) (vals : list float)
  : result ndarray :=
  additional ← additional s n;
  zeros ← np_zeros additional;
  let X_batch := np_append vals zeros in
  count ← py_int_truediv (np_len X_batch) s;
  np_reshape X_batch [count; s; 1].

(** The padding amount in the words of the specification. *)
Definition pad (s n : Z) : Z :=
  if n mod s =? 0 then s else s - n mod s.

(** ** pandas Series

    Rows are (timestamp, reading) pairs in index order.  A DataFrame with a
    single column, as [disaggregate_chunk] and [disaggregate] build them,
    is represented by that column: its rows and the column label. *)

Inductive Label :=
| LInt (n : Z)
| LTuple (a b : string).

Record Series (R : Type) := mk_Series { rows : list (Z * R); name : Label }.
Arguments mk_Series {R} rows name.
Arguments rows {R} s.
Arguments name {R} s.

(** A name that is a tuple, as the measurement [('power', 'active')]. *)
Definition is_tuple (nm : Label) : bool :=
  match nm with LTuple _ _ => true | LInt _ => false end.

Definition index {R} (x : Series R) : list Z := (rows x).*1.
Definition values {R} (x : Series R) : list R := (rows x).*2.
Definition len {R} (x : Series R) : Z := Z.of_nat (length (rows x)).

Definition map_values {R} (f : R → R) (x : Series R) : Series R :=
  mk_Series (prod_map id f <$> rows x) (name x).

(** [x.fillna(v)]: every NaN reading replaced by [v]. *)
Definition fillna (x : Series float) (v : float) : Series float :=
  map_values (λ r, if isnan r then v else r) x.

(** [x.max()]: the largest reading, NaN readings skipped; NaN when there is
    none. *)
Definition fmax (a b : float) : float :=
  if isnan a then b else if isnan b then a else if SFltb a b then b else a.

Definition series_max (x : Series float) : float :=
  foldr fmax S754_nan (values x).

(** A time index in increasing order, without duplicates. *)
Definition increasing (ix : list Z) : Prop := StronglySorted Z.lt ix.

(** [a.intersection(b)] on increasing time indices: the labels of [a] that
    occur in [b], in order. *)
Definition intersection (a b : list Z) : list Z :=
  filter (λ t, t ∈ b) a.

(** [x[ix]]: selection by a list of labels, in the order of [ix]; a label
    selects every row that carries it. *)
Definition getitem {R} (x : Series R) (ix : list Z) : Series R :=
  mk_Series (t ← ix; filter (λ r, r.1 = t) (rows x)) (name x).

(** [pd.Series(vals, index=idx, name=nm)]. *)
Definition pd_Series {R} (vals : list R) (idx : list Z) (nm : Label)
  : result (Series R) :=
  if (length vals =? length idx)%nat then Ok (mk_Series (zip idx vals) nm)
  else Raise ValueError.

(** [power[power < 0] = 0]. *)
Definition clip_negative (x : Series float) : Series float :=
  map_values (λ v, if SFltb v fzero then fzero else v) x.

(** Conversion of a reading to [dtype="float32"]. *)
Definition to_float32 (v : float) : float :=
  match v with
  | S754_finite sg m e => binary_round 24 128 sg m e
  | _ => v
  end.

(** ** The normaliser (lines 235-260)

    [chunk / mmax] and [chunk * mmax] are elementwise in whatever arithmetic
    the readings carry. *)

Section Normalizer.
Context {R : Type} (div mul : R → R → R).

Definition _normalize (chunk : Series R) (mmax : R) : Series R :=
  let tchunk := map_values (λ v, div v mmax) chunk in
  tchunk.

Definition _denormalize (chunk : Series R) (mmax : R) : Series R :=
  let tchunk := map_values (λ v, mul v mmax) chunk in
  tchunk.
End Normalizer.

(** [a == b] on two Series of floats: the elementwise comparisons. *)
Definition eq_elementwise (a b : Series float) : list bool :=
  zip_with SFeqb (values a) (values b).

(** Float formats. *)
Definition binary32 : Z * Z := (24, 128).
Definition binary64 : Z * Z := (53, 1024).

(** The float nearest to an integer. *)
Definition float_of_Z (fmt : Z * Z) (z : Z) : float :=
  binary_normalize fmt.1 fmt.2 z 0 false.

(** [a / b] for integers [a], [b] under [from __future__ import division]
    (line 1): true division, a Python float. *)
Definition py_truediv (a b : Z) : result float :=
  if b =? 0 then Raise ZeroDivisionError
  else Ok (SFdiv binary64.1 binary64.2
             (float_of_Z binary64 a) (float_of_Z binary64 b)).

(** A dimension as Python hands it to NumPy: an [int] or a [float]. *)
Inductive dimension :=
| IntDim (n : Z)
| FloatDim (x : float).

Definition int_dimension (d : dimension) : option Z :=
  match d with IntDim n => Some n | FloatDim _ => None end.

(** [np.reshape(a, newshape)] on a tuple of such dimensions: a float among
    them raises TypeError (it cannot be interpreted as an integer), whatever
    its value. *)
Definition np_reshape_tuple (a : ndarray) (newshape : list dimension)
    : result ndarray :=
  match mapM int_dimension newshape with
  | Some sh => np_reshape a sh
  | None => Raise TypeError
  end.

(** ** Objects, files and the instance *)

Abbreviation loc := positive.

(** A time span [(start, end)]. *)
Abbreviation TimeFrame := (Z * Z)%type.

(** A chunk as a source yields it: a reference to the Series object and the
    [timeframe] attribute attached to it. *)
Record Chunk := mk_Chunk { ref : loc; timeframe : TimeFrame }.

(** What a meter exposes to this code: [building()], [power_series()]. *)
Record ElecMeter := mk_ElecMeter {
  building : Z;
  power_series : list Chunk }.

(** The summary record handed to the output sink after the last chunk. *)
Record Metadata := mk_Metadata {
  md_sample_period : Z;
  md_measurement : option Label;
  md_timeframes : list TimeFrame;
  md_building : Z;
  md_meters : list Z }.

(** The output sink: the [append(key, value)] calls in order, and the
    metadata saved at the end. *)
Record DataStore := mk_DataStore {
  appended : list (string * Series float);
  saved_metadata : option Metadata }.

Section Disaggregator.
(** The Keras model and the float format of the readings. *)
Context {Model : Type}.
Context (_create_model : Z → Model).
Context (fit : Model → ndarray → ndarray → Z → Z → result Model).
Context (predict : Model → ndarray → result ndarray).
Context (fmt : Z * Z).

(** An HDF5 file: the Keras model it holds, if it holds a valid one, and
    its groups of named datasets. *)
Record H5File := mk_H5File {
  keras_model : option Model;
  groups : gmap string (gmap string (list float)) }.

(** The instance attributes the methods read or write ([MODEL_NAME] and
    [gpu_mode] are read by none). *)
Record DAEDisaggregator := mk_DAEDisaggregator {
  mmax : option float;
  sequence_length : Z;
  MIN_CHUNK_LENGTH : Z;
  meter_metadata : Z;
  model : Model }.

Definition __init__ (meter sequence_length : Z) : DAEDisaggregator :=
  {| mmax := None;
     sequence_length := sequence_length;
     MIN_CHUNK_LENGTH := sequence_length;
     meter_metadata := meter;
     model := _create_model sequence_length |}.

Record State := mk_State {
  heap : gmap loc (Series float);
  self : DAEDisaggregator;
  output_datastore : DataStore;
  files : gmap string H5File }.

Definition set_heap (f : gmap loc (Series float) → gmap loc (Series float))
    (st : State) : State :=
  mk_State (f (heap st)) (self st) (output_datastore st) (files st).
Definition set_self (f : DAEDisaggregator → DAEDisaggregator)
    (st : State) : State :=
  mk_State (heap st) (f (self st)) (output_datastore st) (files st).
Definition set_output (f : DataStore → DataStore) (st : State) : State :=
  mk_State (heap st) (self st) (f (output_datastore st)) (files st).
Definition set_files (f : gmap string H5File → gmap string H5File)
    (st : State) : State :=
  mk_State (heap st) (self st) (output_datastore st) (f (files st)).

Definition set_mmax (v : float) (d : DAEDisaggregator) : DAEDisaggregator :=
  mk_DAEDisaggregator (Some v) (sequence_length d) (MIN_CHUNK_LENGTH d)
    (meter_metadata d) (model d).
Definition set_model (m : Model) (d : DAEDisaggregator) : DAEDisaggregator :=
  mk_DAEDisaggregator (mmax d) (sequence_length d) (MIN_CHUNK_LENGTH d)
    (meter_metadata d) m.

(** *** The monad of methods: state passing with exceptions *)

Definition M (A : Type) : Type := State → result A * State.

#[global] Instance M_ret : MRet M := λ A a st, (Ok a, st).
#[global] Instance M_bind : MBind M := λ A B f c st,
  match c st with
  | (Ok a, st') => f a st'
  | (Raise e, st') => (Raise e, st')
  end.

Definition raise {A} (e : exn) : M A := λ st, (Raise e, st).
Definition lift {A} (r : result A) : M A := λ st, (r, st).
Definition gets {A} (f : State → A) : M A := λ st, (Ok (f st), st).
Definition modify (f : State → State) : M unit := λ st, (Ok (), f st).

(** Reading through a reference. *)
Definition deref (l : loc) : M (Series float) := λ st,
  match heap st !! l with
  | Some x => (Ok x, st)
  | None => (Raise ReferenceError, st)
  end.

(** A new object. *)
Definition alloc (x : Series float) : M loc := λ st,
  let l := fresh (dom (heap st)) in (Ok l, set_heap (insert l x) st).

(** [l.fillna(v, inplace=True)]. *)
Definition fillna_inplace (l : loc) (v : float) : M unit :=
  x ← deref l; modify (set_heap (insert l (fillna x v))).

(** [self._normalize(chunk, self.mmax)] on an object: a new Series. *)
Definition normalize_new (chunk : loc) (scale : option float) : M loc :=
  x ← deref chunk;
  match scale with
  | None => raise TypeError
  | Some m => alloc (_normalize (SFdiv fmt.1 fmt.2) x m)
  end.

(** [output_datastore.append(key, value)]. *)
Definition datastore_append (key : string) (df : Series float) : M unit :=
  modify (set_output (λ ds,
    mk_DataStore (appended ds ++ [(key, df)]) (saved_metadata ds))).

(** *** [train_on_chunk] (lines 86-116) *)

Definition train_on_chunk (mainchunk meterchunk : loc)
    (epochs batch_size : Z) : M unit :=
  s ← gets (λ st, sequence_length (self st));
  (* Replace NaNs with 0s *)
  _ ← fillna_inplace mainchunk fzero;
  _ ← fillna_inplace meterchunk fzero;
  main ← deref mainchunk;
  meter ← deref meterchunk;
  let ix := intersection (index main) (index meter) in
  let main := getitem main ix in
  let meter := getitem meter ix in
  (* Create array of batches *)
  additional ← lift (additional s (Z.of_nat (length ix)));
  zeros ← lift (np_zeros additional);
  let X_batch := np_append (values main) zeros in
  zeros ← lift (np_zeros additional);
  let Y_batch := np_append (values meter) zeros in
  count ← lift (py_int_truediv (np_len X_batch) s);
  X_batch ← lift (np_reshape X_batch [count; s; 1]);
  count ← lift (py_int_truediv (np_len Y_batch) s);
  Y_batch ← lift (np_reshape Y_batch [count; s; 1]);
  m ← gets (λ st, model (self st));
  m' ← lift (fit m X_batch Y_batch batch_size epochs);
  modify (set_self (set_model m')).

(** *** [train] (lines 54-84) *)

(** One iteration of the [while] loop, up to the call of
    [train_on_chunk]. *)
Definition train_step (mainchunk meterchunk : Chunk)
    (epochs batch_size : Z) : M unit :=
  scale ← gets (λ st, mmax (self st));
  mainchunk' ← normalize_new (ref mainchunk) scale;
  scale ← gets (λ st, mmax (self st));
  meterchunk' ← normalize_new (ref meterchunk) scale;
  train_on_chunk mainchunk' meterchunk' epochs batch_size.

Fixpoint train_loop (main_power_series meter_power_series : list Chunk)
    (mainchunk meterchunk : Chunk) (epochs batch_size : Z) : M unit :=
  _ ← train_step mainchunk meterchunk epochs batch_size;
  match main_power_series, meter_power_series with
  | mainchunk :: main_power_series, meterchunk :: meter_power_series =>
      train_loop main_power_series meter_power_series
        mainchunk meterchunk epochs batch_size
  | _, _ => mret ()
  end.

Definition train (mains meter : ElecMeter) (epochs batch_size : Z)
    : M unit :=
  match power_series mains with
  | [] => raise StopIteration
  | mainchunk :: main_power_series =>
      match power_series meter with
      | [] => raise StopIteration
      | meterchunk :: meter_power_series =>
          scale ← gets (λ st, mmax (self st));
          _ ← match scale with
              | None =>
                  x ← deref (ref mainchunk);
                  modify (set_self (set_mmax (series_max x)))
              | Some _ => mret ()
              end;
          train_loop main_power_series meter_power_series
            mainchunk meterchunk epochs batch_size
      end
  end.

(** *** [disaggregate_chunk] (lines 178-206) *)

Definition disaggregate_chunk (mains : loc) : M (Series float) :=
  s ← gets (λ st, sequence_length (self st));
  x ← deref mains;
  let up_limit := len x in
  _ ← fillna_inplace mains fzero;
  additional ← lift (additional s up_limit);
  x ← deref mains;
  zeros ← lift (np_zeros additional);
  let X_batch := np_append (values x) zeros in
  (* line 197: len(X_batch) / self.sequence_length, without the int() of
     line 113 *)
  count ← lift (py_truediv (np_len X_batch) s);
  X_batch ← lift (np_reshape_tuple X_batch
                    [FloatDim count; IntDim s; IntDim 1]);
  m ← gets (λ st, model (self st));
  pred ← lift (predict m X_batch);
  pred ← lift (np_reshape pred [up_limit + additional]);
  let pred := take (Z.to_nat up_limit) (data pred) in
  column ← lift (pd_Series pred (index x) (LInt 0));
  let appliance_powers := column in
  mret appliance_powers.

(** *** [disaggregate] (lines 118-176) *)

(** The loop's local variables. *)
Record Locals := mk_Locals {
  timeframes : list TimeFrame;
  measurement : option Label;
  data_is_available : bool }.

(** [load_kwargs.setdefault(k, v)]. *)
Definition setdefault (k : string) (v : Z) (kw : gmap string Z)
    : gmap string Z :=
  match kw !! k with Some _ => kw | None => <[k := v]> kw end.

(** [pd.MultiIndex.from_tuples([name])]: the name has to be a tuple. *)
Definition from_tuples (nm : Label) : M Label :=
  match nm with
  | LTuple _ _ => mret nm
  | LInt _ => raise TypeError
  end.

(** One iteration of the [for] loop over the mains chunks. *)
Definition disaggregate_step (building_path mains_data_location : string)
    (chunk : Chunk) (lv : Locals) : M Locals :=
  x ← deref (ref chunk);
  min_len ← gets (λ st, MIN_CHUNK_LENGTH (self st));
  if len x <? min_len then mret lv (* continue *)
  else
    let timeframes := timeframes lv ++ [timeframe chunk] in
    let measurement := name x in
    scale ← gets (λ st, mmax (self st));
    chunk2 ← normalize_new (ref chunk) scale;
    appliance_power ← disaggregate_chunk chunk2;
    let appliance_power := clip_negative appliance_power in
    scale ← gets (λ st, mmax (self st));
    appliance_power ←
      match scale with
      | None => raise TypeError
      | Some m => mret (_denormalize (SFmul fmt.1 fmt.2) appliance_power m)
      end;
    (* Append prediction to output *)
    x ← deref (ref chunk);
    cols ← from_tuples (name x);
    meter_instance ← gets (λ st, meter_metadata (self st));
    let df := mk_Series (prod_map id to_float32 <$> rows appliance_power)
                cols in
    let key := building_path +:+ "/elec/meter" +:+ pretty meter_instance in
    _ ← datastore_append key df;
    (* Append aggregate data to output *)
    let mains_df := mk_Series (prod_map id to_float32 <$> rows x) cols in
    _ ← datastore_append mains_data_location mains_df;
    mret (mk_Locals timeframes (Some measurement) true).

Fixpoint disaggregate_loop (building_path mains_data_location : string)
    (chunks : list Chunk) (lv : Locals) : M Locals :=
  match chunks with
  | [] => mret lv
  | chunk :: chunks =>
      lv ← disaggregate_step building_path mains_data_location chunk lv;
      disaggregate_loop building_path mains_data_location chunks lv
  end.

(** [_save_metadata_for_disaggregation] of nilmtk's base class: the
    summary record is stored in the sink. *)
Definition _save_metadata_for_disaggregation (md : Metadata) : M unit :=
  modify (set_output (λ ds, mk_DataStore (appended ds) (Some md))).

(** [_pre_disaggregation_checks] of nilmtk's base class is taken to hand
    [load_kwargs] back as it is; the sections asked for are those the
    chunks of [power_series] come from. *)
Definition disaggregate (mains : ElecMeter) (load_kwargs : gmap string Z)
    : M unit :=
  let load_kwargs := setdefault "sample_period" 60 load_kwargs in
  let building_path := "/building" +:+ pretty (building mains) in
  let mains_data_location := building_path +:+ "/elec/meter1" in
  lv ← disaggregate_loop building_path mains_data_location
         (power_series mains) (mk_Locals [] None false);
  (* Save metadata to output *)
  if data_is_available lv then
    meter ← gets (λ st, meter_metadata (self st));
    _save_metadata_for_disaggregation
      (mk_Metadata (default 60 (load_kwargs !! "sample_period"))
         (measurement lv) (timeframes lv) (building mains) [meter])
  else mret ().

(** *** [import_model] and [export_model] (lines 209-233) *)

(** [load_model(filename)]. *)
Definition load_model (filename : string) : M Model := λ st,
  match files st !! filename with
  | Some f =>
      match keras_model f with
      | Some m => (Ok m, st)
      | None => (Raise ValueError, st)
      end
  | None => (Raise OSError, st)
  end.

(** [h5py.File(filename, 'a')]: the file is created when it is missing. *)
Definition h5py_File (filename : string) : M H5File := λ st,
  match files st !! filename with
  | Some f => (Ok f, st)
  | None =>
      let f := mk_H5File None ∅ in
      (Ok f, set_files (insert filename f) st)
  end.

Definition import_model (filename : string) : M unit :=
  m ← load_model filename;
  _ ← modify (set_self (set_model m));
  hf ← h5py_File filename;
  (* ds = hf.get('disaggregator-data').get('mmax') *)
  ds ← match groups hf !! "disaggregator-data" with
       | None => raise AttributeError
       | Some gr => mret (gr !! "mmax")
       end;
  (* np.array(ds)[0] *)
  v ← match ds with
      | None => raise IndexError
      | Some [] => raise IndexError
      | Some (v :: _) => mret v
      end;
  modify (set_self (set_mmax v)).

Definition export_model (filename : string) : M unit :=
  m ← gets (λ st, model (self st));
  (* self.model.save(filename) *)
  _ ← modify (set_files (insert filename (mk_H5File (Some m) ∅)));
  hf ← h5py_File filename;
  (* gr = hf.create_group('disaggregator-data') *)
  _ ← match groups hf !! "disaggregator-data" with
      | Some _ => raise ValueError
      | None => mret ()
      end;
  _ ← modify (set_files (insert filename
         (mk_H5File (keras_model hf)
            (<["disaggregator-data" := ∅]> (groups hf)))));
  (* gr.create_dataset('mmax', data = [self.mmax]) *)
  scale ← gets (λ st, mmax (self st));
  match scale with
  | None => raise TypeError
  | Some v =>
      let gr : gmap string (list float) := {[ "mmax" := [v] ]} in
      modify (set_files (insert filename
        (mk_H5File (keras_model hf)
           (<["disaggregator-data" := gr]> (groups hf)))))
  end.

(** *** Closed forms used in the proofs *)

(** The value [disaggregate_chunk] returns on a series [x] whose missing
    readings are already filled (lines 195-201). *)
Definition chunk_prediction (s : Z) (m : Model) (x : Series float)
    : result (Series float) :=
  additional ← additional s (len x);
  zeros ← np_zeros additional;
  let X_batch := np_append (values x) zeros in
  count ← py_truediv (np_len X_batch) s;
  X_batch ← np_reshape_tuple X_batch [FloatDim count; IntDim s; IntDim 1];
  pred ← predict m X_batch;
  pred ← np_reshape pred [len x + additional];
  pd_Series (take (Z.to_nat (len x)) (data pred)) (index x) (LInt 0).

(** The exception with which [disaggregate_chunk] ends after the fill, by
    the window size: the modulo of line 195 for [s = 0], [np.zeros] of
    line 196 for [s < 0], the reshape of line 197 otherwise. *)
Definition window_error (s : Z) : exn :=
  if s =? 0 then ZeroDivisionError
  else if s <? 0 then ValueError else TypeError.

(** The clip, the denormalisation and the float32 conversion that
    [disaggregate] applies to a prediction (lines 150-159). *)
Definition emit_value (scale v : float) : float :=
  to_float32
    (SFmul fmt.1 fmt.2 (if SFltb v fzero then fzero else v) scale).

(** The appliance frame [disaggregate] appends for the mains chunk [x]. *)
Definition appliance_frame (s : Z) (m : Model) (scale : float)
    (x : Series float) : result (Series float) :=
  column ← chunk_prediction s m
              (fillna (_normalize (SFdiv fmt.1 fmt.2) x scale) fzero);
  Ok (mk_Series (prod_map id (emit_value scale) <$> rows column) (name x)).

(** The copy of the mains chunk [disaggregate] appends. *)
Definition mains_frame (x : Series float) : Series float :=
  mk_Series (prod_map id to_float32 <$> rows x) (name x).

(** The state after the two [append] calls of one processed chunk. *)
Definition emit (key mains_data_location : string)
    (df mains_df : Series float) (st : State) : State :=
  set_output (λ ds,
    mk_DataStore (appended ds ++ [(key, df); (mains_data_location, mains_df)])
      (saved_metadata ds)) st.

(** The batches [train_on_chunk] hands to [fit] for two NaN-filled
    series (lines 103-114). *)
Definition training_batches (s : Z) (main meter : Series float)
    : result (ndarray * ndarray) :=
  let ix := intersection (index main) (index meter) in
  let n := Z.of_nat (length ix) in
  X_batch ← create_array_of_batches s n (values (getitem main ix));
  Y_batch ← create_array_of_batches s n (values (getitem meter ix));
  Ok (X_batch, Y_batch).

(** The state after one training iteration on the chunks [x1], [x2]
    with the scale [m]: two new objects, the NaN-filled normalised
    copies. *)
Definition trained_heap (m : float) (x1 x2 : Series float)
    (h : gmap loc (Series float)) : gmap loc (Series float) :=
  let n1 := _normalize (SFdiv fmt.1 fmt.2) x1 m in
  let n2 := _normalize (SFdiv fmt.1 fmt.2) x2 m in
  let l1 := fresh (dom h) in
  let l2 := fresh (dom (<[l1 := n1]> h)) in
  <[l2 := fillna n2 fzero]> (<[l1 := fillna n1 fzero]> h).

(** *** Sequences of calls on one instance *)

Inductive call :=
| Train (mains meter : ElecMeter) (epochs batch_size : Z)
| Disaggregate (mains : ElecMeter) (load_kwargs : gmap string Z).

Definition run_call (c : call) (st : State) : State :=
  match c with
  | Train mains meter epochs batch_size =>
      (train mains meter epochs batch_size st).2
  | Disaggregate mains load_kwargs => (disaggregate mains load_kwargs st).2
  end.

Definition run_calls (cs : list call) (st : State) : State :=
  foldl (λ st c, run_call c st) st cs.

(** Every object of the first store is unchanged in the second. *)
Definition objects_kept (st st' : State) : Prop :=
  ∀ l x, heap st !! l = Some x → heap st' !! l = Some x.

(** The attributes other than the predictor are unchanged. *)
Definition attributes_kept (st st' : State) : Prop :=
  mmax (self st') = mmax (self st) ∧
  sequence_length (self st') = sequence_length (self st) ∧
  MIN_CHUNK_LENGTH (self st') = MIN_CHUNK_LENGTH (self st) ∧
  meter_metadata (self st') = meter_metadata (self st).

End Disaggregator.

(** ** Example instances *)

(** A model-free instance with window size [s] and scale [scale], over a
    store [h]. *)
Definition example_state (s : Z) (scale : option float)
    (h : gmap loc (Series float)) : @State unit :=
  mk_State h (mk_DAEDisaggregator scale s s 5 ())
    (mk_DataStore [] None) ∅.

Definition f32 : Z → float := float_of_Z binary32.

(** Readings [10, NaN, 30] at the timestamps [1, 2, 3]. *)
Definition gappy_series : Series float :=
  mk_Series [(1, f32 10); (2, S754_nan); (3, f32 30)] (LTuple "power" "active").

(** A file with a valid saved predictor and no scale. *)
Definition artifact_without_scale : H5File (Model := nat) :=
  mk_H5File (Some 7%nat) ∅.

Definition trained_state : @State nat :=
  mk_State ∅ (mk_DAEDisaggregator (Some (f32 3000)) 256 256 5 1%nat)
    (mk_DataStore [] None) {[ "model.h5" := artifact_without_scale ]}.

(** The predictor that hands every batch back. *)
Definition identity_predict : unit → ndarray → result ndarray :=
  λ _ X, Ok X.

(** A predictor whose weights have diverged: every output is NaN. *)
Definition nan_predict : unit → ndarray → result ndarray :=
  λ _ X, Ok (mk_ndarray (shape X) ((λ _, S754_nan) <$> data X)).

(** A predictor that answers with the negated batch. *)
Definition negating_predict : unit → ndarray → result ndarray :=
  λ _ X, Ok (mk_ndarray (shape X) (SFopp <$> data X)).

(** A trainer that leaves the model as it is. *)
Definition idle_fit : unit → ndarray → ndarray → Z → Z → result unit :=
  λ m _ _ _ _, Ok m.

(** Mains readings [60, 90] at the timestamps [1, 2], and a single reading
    [75] at the timestamp [3]. *)
Definition two_readings : Series float :=
  mk_Series [(1, f32 60); (2, f32 90)] (LTuple "power" "active").

Definition one_reading : Series float :=
  mk_Series [(3, f32 75)] (LTuple "power" "active").

(** An instance with window size 2 and scale 100 over a store that holds
    [two_readings], [one_reading] and [gappy_series]. *)
Definition example_store : gmap loc (Series float) :=
  {[ 1%positive := two_readings; 2%positive := one_reading;
     3%positive := gappy_series ]}.

Definition scaled_state : @State unit :=
  example_state 2 (Some (f32 100)) example_store.

(** A meter of building 1 that yields [two_readings], then [one_reading]. *)
Definition example_mains : ElecMeter :=
  mk_ElecMeter 1 [mk_Chunk 1 (1, 2); mk_Chunk 2 (3, 3)].

(** A second stream: [gappy_series], whose largest reading is 30, and then
    [two_readings], whose largest reading is 90. *)
Definition later_is_larger : ElecMeter :=
  mk_ElecMeter 1 [mk_Chunk 3 (1, 3); mk_Chunk 1 (4, 5)].

Definition unscaled_state : @State unit := example_state 2 None example_store.

(** Appliance readings [5, NaN, 7] at the timestamps [2, 3, 4]. *)
Definition meter_readings : Series float :=
  mk_Series [(2, f32 5); (3, S754_nan); (4, f32 7)] (LTuple "power" "active").

Definition training_state : @State unit :=
  example_state 2 (Some (f32 100))
    {[ 1%positive := gappy_series; 2%positive := meter_readings ]}.

(** ** Closed forms of the two loops *)

Section Loops.
Context {Model : Type}.
Context (fit : Model → ndarray → ndarray → Z → Z → result Model).
Context (predict : Model → ndarray → result ndarray).
Context (fmt : Z * Z).

(** The predictor after training, in turn, on the pairs of chunks
    [(mains, meter)] with the scale [scale]: each chunk is normalised, its
    missing readings filled, the pair windowed on its common index and
    handed to [fit]. *)
Fixpoint fit_chunks (s : Z) (scale : float) (epochs batch_size : Z)
    (m : Model) (pairs : list (Series float * Series float))
    : result Model :=
  match pairs with
  | [] => Ok m
  | (x1, x2) :: pairs =>
      b ← training_batches s
             (fillna (_normalize (SFdiv fmt.1 fmt.2) x1 scale) fzero)
             (fillna (_normalize (SFdiv fmt.1 fmt.2) x2 scale) fzero);
      m ← fit m b.1 b.2 batch_size epochs;
      fit_chunks s scale epochs batch_size m pairs
  end.

(** A call of one of the public methods. *)
Inductive method :=
| CallTrain (mains meter : ElecMeter) (epochs batch_size : Z)
| CallTrainOnChunk (mainchunk meterchunk : loc) (epochs batch_size : Z)
| CallDisaggregate (mains : ElecMeter) (load_kwargs : gmap string Z)
| CallDisaggregateChunk (mains : loc)
| CallImport (filename : string)
| CallExport (filename : string).

Definition run_method (c : method) (st : @State Model) : State :=
  match c with
  | CallTrain mains meter epochs batch_size =>
      (train fit fmt mains meter epochs batch_size st).2
  | CallTrainOnChunk mainchunk meterchunk epochs batch_size =>
      (train_on_chunk fit mainchunk meterchunk epochs batch_size st).2
  | CallDisaggregate mains load_kwargs =>
      (disaggregate predict fmt mains load_kwargs st).2
  | CallDisaggregateChunk mains => (disaggregate_chunk predict mains st).2
  | CallImport filename => (import_model filename st).2
  | CallExport filename => (export_model filename st).2
  end.

Definition run_methods (cs : list method) (st : @State Model) : State :=
  foldl (λ st c, run_method c st) st cs.

End Loops.

(** A trainer that counts its calls and fails on a batch of another shape
    than [(count, 2, 1)]. *)
Definition counting_fit : nat → ndarray → ndarray → Z → Z → result nat :=
  λ m X Y _ _,
    match shape X, shape Y with
    | [_; 2; 1], [_; 2; 1] => Ok (S m)
    | _, _ => Raise ValueError
    end.

(** An instance with a counter for predictor, over [example_store]. *)
Definition counting_state (s : Z) (scale : option float) : @State nat :=
  mk_State example_store (mk_DAEDisaggregator scale s s 5 0%nat)
    (mk_DataStore [] None) ∅.

(** A stream of three chunks and a stream of two. *)
Definition three_chunks : ElecMeter :=
  mk_ElecMeter 1 [mk_Chunk 1 (1, 2); mk_Chunk 3 (1, 3); mk_Chunk 2 (3, 3)].

Definition two_chunks : ElecMeter :=
  mk_ElecMeter 1 [mk_Chunk 3 (1, 3); mk_Chunk 1 (1, 2)].

(** Every object of the first store is in the second, as it was or with its
    NaN readings replaced by [0.0]. *)
Definition objects_kept_or_filled {Model : Type} (st st' : @State Model)
    : Prop :=
  ∀ l x, heap st !! l = Some x →
         heap st' !! l = Some x ∨ heap st' !! l = Some (fillna x fzero).




(** ** Windower: padding and shape *)

Lemma additional_eq_pad s n : s ≠ 0 → additional s n = Ok (pad s n).
Proof.
  intros Hs. unfold additional, py_mod, pad.
  destruct (Z.eqb_spec s 0) as [|_]; [done|]. simpl.
  destruct (Z.eqb_spec (n mod s) 0) as [->|_]; [f_equal; lia|done].
Qed.

Lemma pad_bounds s n : 0 < s → 1 ≤ pad s n ≤ s.
Proof.
  intros Hs. unfold pad. pose proof (Z.mod_pos_bound n s Hs).
  destruct (Z.eqb_spec (n mod s) 0); lia.
Qed.

Lemma pad_divides s n : 0 < s → (n + pad s n) mod s = 0.
Proof.
  intros Hs. unfold pad.
  destruct (Z.eqb_spec (n mod s) 0) as [E|_].
  - rewrite <- Zplus_mod_idemp_l, E, Z.add_0_l. apply Z_mod_same_full.
  - replace (n + (s - n mod s)) with (s + (n - n mod s)) by lia.
    rewrite <- Zplus_mod_idemp_l, Z_mod_same_full, Z.add_0_l.
    rewrite Zminus_mod_idemp_r, Z.sub_diag. apply Zmod_0_l.
Qed.

Lemma pad_count s n : 0 < s → 0 ≤ n → (n + pad s n) / s = n / s + 1.
Proof.
  intros Hs Hn. unfold pad.
  destruct (Z.eqb_spec (n mod s) 0) as [E|_].
  - replace (n + s) with (n + 1 * s) by lia. by rewrite Z.div_add by lia.
  - replace (n + (s - n mod s)) with ((n - n mod s) + 1 * s) by lia.
    rewrite Z.div_add by lia. f_equal.
    rewrite (Z.div_mod n s) at 1 by lia.
    replace (s * (n / s) + n mod s - n mod s) with ((n / s) * s) by lia.
    apply Z.div_mul. lia.
Qed.

Lemma create_array_of_batches_ok s (vals : list float) :
  0 < s →
  let n := Z.of_nat (length vals) in
  create_array_of_batches s n vals
  = Ok (mk_ndarray [n / s + 1; s; 1]
          (vals ++ replicate (Z.to_nat (pad s n)) fzero)).
Proof.
  intros Hs n. unfold create_array_of_batches.
  rewrite additional_eq_pad by lia. simpl.
  pose proof (pad_bounds s n Hs) as Hp.
  unfold np_zeros. destruct (Z.ltb_spec (pad s n) 0) as [|_]; [lia|]. simpl.
  assert (Hlen : np_len (np_append vals
            (mk_ndarray [pad s n] (replicate (Z.to_nat (pad s n)) fzero)))
          = n + pad s n).
  { unfold np_len, np_append. simpl.
    rewrite length_app, length_replicate. lia. }
  rewrite Hlen. unfold py_int_truediv.
  destruct (Z.eqb_spec s 0) as [|_]; [lia|]. simpl.
  rewrite Z.quot_div_nonneg by lia.
  rewrite pad_count by lia.
  unfold np_reshape. rewrite Hlen. simpl.
  assert (Hdiv : (n / s + 1) * (s * 1) = n + pad s n).
  { rewrite <- (pad_count s n) by lia. rewrite Z.mul_1_r.
    pose proof (pad_divides s n Hs) as Hm.
    pose proof (Z.div_mod (n + pad s n) s). lia. }
  assert (0 ≤ n / s) by (apply Z.div_pos; lia).
  destruct (Z.leb_spec 0 (n / s + 1)); [|lia].
  destruct (Z.leb_spec 0 s); [|lia]. simpl.
  unfold prod_shape. simpl.
  case Z.eqb_spec; [done|lia].
Qed.

(** ** Series lemmas *)

Lemma index_map_values {R} (f : R → R) (x : Series R) :
  index (map_values f x) = index x.
Proof.
  unfold index, map_values. simpl. rewrite <- list_fmap_compose.
  apply list_fmap_ext. by intros _ [t v] _.
Qed.

Lemma values_map_values {R} (f : R → R) (x : Series R) :
  values (map_values f x) = f <$> values x.
Proof.
  unfold values, map_values. simpl. rewrite <- !list_fmap_compose.
  apply list_fmap_ext. by intros _ [t v] _.
Qed.

Lemma len_map_values {R} (f : R → R) (x : Series R) :
  len (map_values f x) = len x.
Proof. unfold len, map_values. simpl. by rewrite length_fmap. Qed.

Lemma length_index {R} (x : Series R) : Z.of_nat (length (index x)) = len x.
Proof. unfold index, len. by rewrite length_fmap. Qed.

Lemma length_values {R} (x : Series R) : Z.of_nat (length (values x)) = len x.
Proof. unfold values, len. by rewrite length_fmap. Qed.

Lemma zip_index_values {R} (x : Series R) : zip (index x) (values x) = rows x.
Proof. unfold index, values. apply zip_fst_snd. Qed.

Lemma len_fillna x v : len (fillna x v) = len x.
Proof. apply len_map_values. Qed.

Lemma index_fillna x v : index (fillna x v) = index x.
Proof. apply index_map_values. Qed.

Section Run.
Context {Model : Type}.
Context (fit : Model → ndarray → ndarray → Z → Z → result Model).
Context (predict : Model → ndarray → result ndarray).
Context (fmt : Z * Z).

Lemma deref_ok l x (st : @State Model) :
  heap st !! l = Some x → deref l st = (Ok x, st).
Proof. intros H. unfold deref. by rewrite H. Qed.

Lemma deref_insert l y (st : @State Model) :
  deref l (set_heap (insert l y) st) = (Ok y, set_heap (insert l y) st).
Proof. apply deref_ok. unfold set_heap. simpl. apply lookup_insert_eq. Qed.

Lemma disaggregate_chunk_run l x (st : @State Model) :
  heap st !! l = Some x →
  disaggregate_chunk predict l st
  = (chunk_prediction predict (sequence_length (self st)) (model (self st))
       (fillna x fzero),
     set_heap (insert l (fillna x fzero)) st).
Proof.
  intros Hl. unfold disaggregate_chunk, fillna_inplace, chunk_prediction.
  unfold mbind, M_bind, mret, M_ret, gets, lift, modify.
  cbv beta iota. rewrite !(deref_ok _ _ _ Hl). cbv beta iota.
  rewrite deref_insert. cbv beta iota.
  rewrite !len_fillna. cbn [self set_heap].
  unfold create_array_of_batches, mbind, result_bind.
  repeat case_match; simplify_eq; done.
Qed.
End Run.

(** ** Windower: the claims on padding and windows *)

Lemma item3_flat (B : ndarray) (c s i j : Z) :
  shape B = [c; s; 1] → 0 ≤ i < c → 0 ≤ j < s →
  item3 B i j 0 = data B !! Z.to_nat (i * s + j).
Proof.
  intros Hsh Hi Hj. unfold item3. rewrite Hsh.
  destruct (Z.leb_spec 0 i); [|lia]. destruct (Z.ltb_spec i c); [|lia].
  destruct (Z.leb_spec 0 j); [|lia]. destruct (Z.ltb_spec j s); [|lia].
  simpl. do 2 f_equal. lia.
Qed.

(** C10: for every length [n >= 0] and window size [s > 0] the padding
    amount the code computes is between 1 and [s], the padded length is a
    multiple of [s], and the reshape into a [(count, s, 1)] batch succeeds
    with [count * s] elements: no partial window is ever needed. *)
Theorem padding_makes_whole_windows (s n : Z) :
  0 < s → 0 ≤ n →
  ∃ p, additional s n = Ok p ∧ 1 ≤ p ≤ s ∧ (n + p) mod s = 0 ∧
    ∀ vals : list float, Z.of_nat (length vals) = n →
      ∃ B, create_array_of_batches s n vals = Ok B ∧
           shape B = [(n + p) / s; s; 1] ∧
           np_len B = (n + p) / s * s.
Proof.
  intros Hs Hn. exists (pad s n).
  split; [apply additional_eq_pad; lia|].
  split; [by apply pad_bounds|].
  split; [by apply pad_divides|].
  intros vals <-. eexists. split; [by apply create_array_of_batches_ok|].
  pose proof (pad_bounds s (Z.of_nat (length vals)) Hs).
  rewrite pad_count by lia. split; [done|].
  unfold np_len. simpl. rewrite length_app, length_replicate.
  rewrite <- (pad_count s (Z.of_nat (length vals))) by lia.
  pose proof (pad_divides s (Z.of_nat (length vals)) Hs).
  pose proof (Z.div_mod (Z.of_nat (length vals) + pad s (Z.of_nat (length vals))) s).
  lia.
Qed.

Lemma padding_makes_whole_windows_witness :
  ∃ p, additional 2 4 = Ok p ∧ 1 ≤ p ≤ 2 ∧ (4 + p) mod 2 = 0 ∧
    ∀ vals : list float, Z.of_nat (length vals) = 4 →
      ∃ B, create_array_of_batches 2 4 vals = Ok B ∧
           shape B = [(4 + p) / 2; 2; 1] ∧
           np_len B = (4 + p) / 2 * 2.
Proof. apply (padding_makes_whole_windows 2 4); lia. Defined.



Example scenario_exact_multiple :
  create_array_of_batches 2 4 (float_of_Z binary32 <$> [10; 20; 30; 40])
  = Ok (mk_ndarray [3; 2; 1]
          ((float_of_Z binary32 <$> [10; 20; 30; 40]) ++ [fzero; fzero])).
Proof. vm_compute. reflexivity. Qed.

Example windowing_raises_on_zero_length :
  create_array_of_batches 0 4 (float_of_Z binary32 <$> [10; 20; 30; 40])
  = Raise ZeroDivisionError.
Proof. reflexivity. Qed.

Example windowing_raises_on_negative_length :
  create_array_of_batches (-3) 4 (float_of_Z binary32 <$> [10; 20; 30; 40])
  = Raise ValueError.
Proof. reflexivity. Qed.

(** ** The batch of [disaggregate_chunk] *)

Section ChunkPrediction.
Context {Model : Type}.
Context (predict : Model → ndarray → result ndarray).

(** After the fill, [disaggregate_chunk] raises whatever the window size and
    the predictor: the float dimension of line 197 stops every run that gets
    past lines 195 and 196. *)
Lemma chunk_prediction_raises s m (x : Series float) :
  chunk_prediction predict s m x = Raise (window_error s).
Proof.
  unfold chunk_prediction, window_error, additional, py_mod.
  destruct (Z.eqb_spec s 0) as [|Hs0]; [done|].
  cbn [mbind result_bind]. unfold np_zeros.
  destruct (Z.ltb_spec (s - len x mod s) 0) as [Hneg|Hpos].
  - destruct (Z.ltb_spec s 0) as [|Hs]; [done|].
    pose proof (Z.mod_pos_bound (len x) s). lia.
  - destruct (Z.ltb_spec s 0) as [Hs|Hs].
    { pose proof (Z.mod_neg_bound (len x) s). lia. }
    cbn [mbind result_bind]. unfold py_truediv.
    destruct (Z.eqb_spec s 0) as [|_]; [done|]. done.
Qed.
End ChunkPrediction.

(** C1 (code defect): the round trip is never completed.  On the Series
    [10, NaN, 30] with window size 2 and a predictor that hands the batch
    back, [disaggregate_chunk] fills the Series and then raises TypeError at
    the reshape of line 197, whose first dimension [len(X_batch) / s] is a
    float; the same padded values go through the reshape of line 113, which
    has the [int()], and give the batch of two windows, from which the
    flattening and the truncation would give back the filled values. *)
Theorem disaggregate_chunk_raises_at_the_window_reshape :
  let st := example_state 2 None {[ 1%positive := gappy_series ]} in
  let filled := fillna gappy_series fzero in
  disaggregate_chunk identity_predict 1%positive st
  = (Raise TypeError, set_heap (insert 1%positive filled) st) ∧
  (∃ count, py_truediv (3 + pad 2 3) 2 = Ok count ∧
            np_reshape_tuple
              (mk_ndarray [4] (values filled ++ [fzero]))
              [FloatDim count; IntDim 2; IntDim 1]
            = Raise TypeError) ∧
  create_array_of_batches 2 3 (values filled)
  = Ok (mk_ndarray [2; 2; 1] (values filled ++ [fzero])) ∧
  take 3 (values filled ++ [fzero]) = values filled.
Proof.
  cbv zeta. split; [|split; [|split]].
  - by rewrite (disaggregate_chunk_run identity_predict 1%positive
                  gappy_series), chunk_prediction_raises.
  - eexists. split; [reflexivity|reflexivity].
  - reflexivity.
  - reflexivity.
Qed.

(** ** The normaliser *)

Lemma normalize_denormalize_rows {R} (div mul : R → R → R) (x : Series R) m :
  let y := _denormalize mul (_normalize div x m) m in
  index y = index x ∧ name y = name x ∧ len y = len x ∧
  values y = (λ v, mul (div v m) m) <$> values x.
Proof.
  unfold _denormalize, _normalize. cbv zeta.
  rewrite !index_map_values, !len_map_values, !values_map_values.
  rewrite <- list_fmap_compose. done.
Qed.

(** C3, as the code has it: in exact rational arithmetic
    [denormalize(normalize(x, m), m)] equals [x] elementwise for every scale
    [m > 0]; on floats the index, the name and the length are those of [x]
    and every value is [x_i / m * m] with its two roundings. *)
Theorem normalize_denormalize_exact (x : Series Q) (m : Q)
    (fmt : Z * Z) (xf : Series float) (mf : float) :
  (0 < m)%Q →
  let y := _denormalize Qmult (_normalize Qdiv x m) m in
  let yf := _denormalize (SFmul fmt.1 fmt.2)
              (_normalize (SFdiv fmt.1 fmt.2) xf mf) mf in
  (index y = index x ∧ name y = name x ∧
   Forall2 Qeq (values y) (values x)) ∧
  (index yf = index xf ∧ name yf = name xf ∧ len yf = len xf ∧
   values yf
   = (λ v, SFmul fmt.1 fmt.2 (SFdiv fmt.1 fmt.2 v mf) mf) <$> values xf).
Proof.
  intros Hm y yf. split; [|apply normalize_denormalize_rows].
  destruct (normalize_denormalize_rows Qdiv Qmult x m) as (Hi & Hn & _ & Hv).
  fold y in Hi, Hn, Hv. split; [done|]. split; [done|].
  rewrite Hv. apply Forall2_fmap_l, Forall_Forall2_diag, Forall_forall.
  intros v _. change (Qeq (v / m * m) v).
  transitivity (m * (v / m))%Q; [apply Qmult_comm|].
  apply Qmult_div_r. intros E. rewrite E in Hm. by apply Qlt_irrefl in Hm.
Qed.

Lemma normalize_denormalize_exact_witness :
  let x := mk_Series [(0, 1%Q); (60, (7 # 2)%Q)] (LInt 0) in
  let xf := mk_Series [(0, float_of_Z binary32 1)] (LInt 0) in
  let mf := float_of_Z binary32 41 in
  let y := _denormalize Qmult (_normalize Qdiv x (49 # 1)%Q) (49 # 1)%Q in
  let yf := _denormalize (SFmul 24 128) (_normalize (SFdiv 24 128) xf mf) mf in
  (index y = index x ∧ name y = name x ∧
   Forall2 Qeq (values y) (values x)) ∧
  (index yf = index xf ∧ name yf = name xf ∧ len yf = len xf ∧
   values yf = (λ v, SFmul 24 128 (SFdiv 24 128 v mf) mf) <$> values xf).
Proof.
  exact (normalize_denormalize_exact
           (mk_Series [(0, 1%Q); (60, (7 # 2)%Q)] (LInt 0)) (49 # 1)%Q
           binary32 (mk_Series [(0, float_of_Z binary32 1)] (LInt 0))
           (float_of_Z binary32 41) ltac:(done)).
Defined.

(** C3 fails on floats: [1.0 / 41.0 * 41.0] is not [1.0] in binary32, nor
    is [1.0 / 49.0 * 49.0] in binary64. *)
Lemma normalize_denormalize_inexact :
  let round_trip fmt (x : Series float) m :=
    _denormalize (SFmul fmt.1 fmt.2) (_normalize (SFdiv fmt.1 fmt.2) x m) m in
  let one32 := mk_Series [(0, float_of_Z binary32 1)] (LInt 0) in
  let one64 := mk_Series [(0, float_of_Z binary64 1)] (LInt 0) in
  SFltb fzero (float_of_Z binary32 41) = true ∧
  eq_elementwise (round_trip binary32 one32 (float_of_Z binary32 41)) one32
  = [false] ∧
  SFltb fzero (float_of_Z binary64 49) = true ∧
  eq_elementwise (round_trip binary64 one64 (float_of_Z binary64 49)) one64
  = [false].
Proof. vm_compute. done. Qed.

(** ** Model persistence *)

(** C7, as the code has it: importing an artifact that holds a valid
    predictor but no [mmax] dataset under [disaggregator-data] raises
    (AttributeError when the group is missing, IndexError when the dataset
    is), so no scale is defaulted and the instance's scale is untouched; the
    predictor has by then been replaced by the one loaded from the
    artifact. *)
Theorem import_without_scale_raises {Model : Type} (st : @State Model)
    (filename : string) (f : H5File) (loaded : Model) :
  files st !! filename = Some f →
  keras_model f = Some loaded →
  (gr ← groups f !! "disaggregator-data"; gr !! "mmax") = None →
  ∃ e, import_model filename st
       = (Raise e, set_self (set_model loaded) st) ∧
       (e = AttributeError ∨ e = IndexError) ∧
       mmax (self (import_model filename st).2) = mmax (self st) ∧
       model (self (import_model filename st).2) = loaded.
Proof.
  intros Hf Hm Hno.
  assert (Hload : load_model filename st = (Ok loaded, st)).
  { unfold load_model. by rewrite Hf, Hm. }
  assert (Hopen : h5py_File filename (set_self (set_model loaded) st)
                  = (Ok f, set_self (set_model loaded) st)).
  { unfold h5py_File. cbn [files set_self]. by rewrite Hf. }
  assert (∃ e, import_model filename st
               = (Raise e, set_self (set_model loaded) st) ∧
               (e = AttributeError ∨ e = IndexError)) as (e & He & Hor).
  { unfold import_model, mbind, M_bind. rewrite Hload.
    unfold modify at 1. cbv beta iota. rewrite Hopen.
    destruct (groups f !! "disaggregator-data") as [gr|] eqn:Hg.
    - cbn in Hno. rewrite Hno. exists IndexError.
      unfold mret, M_ret, raise. eauto.
    - exists AttributeError. unfold raise. eauto. }
  exists e. rewrite He. done.
Qed.

Lemma import_without_scale_raises_witness :
  ∃ e, import_model "model.h5" trained_state
       = (Raise e, set_self (set_model 7%nat) trained_state) ∧
       (e = AttributeError ∨ e = IndexError) ∧
       mmax (self (import_model "model.h5" trained_state).2)
       = mmax (self trained_state) ∧
       model (self (import_model "model.h5" trained_state).2) = 7%nat.
Proof.
  exact (import_without_scale_raises trained_state "model.h5"
           artifact_without_scale 7%nat ltac:(done) ltac:(done) ltac:(done)).
Defined.

(** C7 fails as stated: the failed import leaves the scale alone but not
    the predictor. *)
Lemma import_without_scale_replaces_model :
  (import_model "model.h5" trained_state).1 = Raise AttributeError ∧
  mmax (self (import_model "model.h5" trained_state).2)
  = mmax (self trained_state) ∧
  model (self trained_state) = 1%nat ∧
  model (self (import_model "model.h5" trained_state).2) = 7%nat.
Proof. vm_compute. done. Qed.

(** ** One iteration of the disaggregation loop *)

Section Step.
Context {Model : Type}.
Context (predict : Model → ndarray → result ndarray).
Context (fmt : Z * Z).

Lemma fresh_ne (h : gmap loc (Series float)) l x :
  h !! l = Some x → fresh (dom h) ≠ l.
Proof.
  intros Hl E. apply (is_fresh (dom h)). rewrite E.
  apply elem_of_dom. eauto.
Qed.

Lemma disaggregate_step_run bp ml c lv (st : @State Model) x :
  heap st !! ref c = Some x →
  disaggregate_step predict fmt bp ml c lv st
  = if len x <? MIN_CHUNK_LENGTH (self st) then (Ok lv, st)
    else
      match mmax (self st) with
      | None => (Raise TypeError, st)
      | Some m =>
          let st2 :=
            set_heap (insert (fresh (dom (heap st)))
                        (fillna (_normalize (SFdiv fmt.1 fmt.2) x m) fzero))
              st in
          match appliance_frame predict fmt (sequence_length (self st))
                  (model (self st)) m x with
          | Raise e => (Raise e, st2)
          | Ok df =>
              if is_tuple (name x) then
                (Ok (mk_Locals (timeframes lv ++ [timeframe c])
                       (Some (name x)) true),
                 emit (bp +:+ "/elec/meter"
                       +:+ pretty (meter_metadata (self st))) ml
                   df (mains_frame x) st2)
              else (Raise TypeError, st2)
          end
      end.
Proof.
  intros Hl. unfold disaggregate_step.
  unfold mbind at 1 2, M_bind at 1 2. rewrite (deref_ok _ _ _ Hl).
  unfold gets at 1. cbv beta iota.
  destruct (len x <? MIN_CHUNK_LENGTH (self st)); [done|].
  unfold mbind at 1 2, M_bind at 1 2, gets at 1. cbv beta iota.
  unfold normalize_new. unfold mbind at 1, M_bind at 1.
  rewrite (deref_ok _ _ _ Hl). cbv beta iota.
  destruct (mmax (self st)) as [m|] eqn:Hm; [|done].
  unfold alloc. cbv beta iota zeta.
  set (xn := _normalize (SFdiv fmt.1 fmt.2) x m).
  set (l2 := fresh (dom (heap st))).
  assert (Hne : l2 ≠ ref c) by (eapply fresh_ne; eauto).
  unfold mbind at 1, M_bind at 1.
  rewrite (disaggregate_chunk_run predict l2 xn)
    by (cbn [heap set_heap]; apply lookup_insert_eq).
  unfold set_heap. cbn [self heap output_datastore files].
  rewrite insert_insert_eq.
  unfold appliance_frame. fold xn.
  destruct (chunk_prediction predict (sequence_length (self st))
              (model (self st)) (fillna xn fzero)) as [col|e]; [|done].
  cbn [mbind result_bind].
  unfold mbind, M_bind, gets, mret, M_ret, datastore_append, modify.
  cbn [self]. rewrite Hm.
  erewrite deref_ok; [|cbn [heap]; rewrite lookup_insert_ne by done; eauto].
  cbv beta iota. unfold from_tuples, raise, mret, M_ret.
  destruct (name x) as [k|a b] eqn:Hname; [done|]. cbn [is_tuple].
  unfold emit, set_output, mains_frame. rewrite Hname.
  cbn [heap self output_datastore files appended saved_metadata].
  rewrite <- app_assoc. cbn [app].
  assert (Hrows : prod_map id to_float32 <$>
                    rows (_denormalize (SFmul fmt.1 fmt.2)
                            (clip_negative col) m)
                  = prod_map id (emit_value fmt m) <$> rows col).
  { unfold _denormalize, clip_negative, map_values. cbn [rows].
    rewrite <- !list_fmap_compose. apply list_fmap_ext. by intros _ [t v] _. }
  by rewrite Hrows.
Qed.
End Step.

(** ** Training on one chunk *)

Section Training.
Context {Model : Type}.
Context (fit : Model → ndarray → ndarray → Z → Z → result Model).
Context (fmt : Z * Z).

Lemma train_on_chunk_run l1 l2 x1 x2 epochs batch_size (st : @State Model) :
  l1 ≠ l2 →
  heap st !! l1 = Some x1 → heap st !! l2 = Some x2 →
  train_on_chunk fit l1 l2 epochs batch_size st
  = let st1 := set_heap (λ h, <[l2 := fillna x2 fzero]>
                                (<[l1 := fillna x1 fzero]> h)) st in
    match
      training_batches (sequence_length (self st))
        (fillna x1 fzero) (fillna x2 fzero)
    with
    | Raise e => (Raise e, st1)
    | Ok (X_batch, Y_batch) =>
        match fit (model (self st)) X_batch Y_batch batch_size epochs with
        | Raise e => (Raise e, st1)
        | Ok m' => (Ok (), set_self (set_model m') st1)
        end
    end.
Proof.
  intros Hne H1 H2. unfold train_on_chunk, fillna_inplace.
  unfold mbind, M_bind, gets, modify, lift. cbv beta iota.
  rewrite (deref_ok _ _ _ H1). cbv beta iota.
  erewrite (deref_ok l2 x2);
    [|cbn [heap set_heap]; by rewrite lookup_insert_ne].
  cbv beta iota.
  erewrite (deref_ok l1 (fillna x1 fzero)); cycle 1.
  { cbn [heap set_heap]. rewrite lookup_insert_ne by done.
    apply lookup_insert_eq. }
  erewrite (deref_ok l2 (fillna x2 fzero));
    [|cbn [heap set_heap]; apply lookup_insert_eq].
  cbv beta iota zeta. cbn [self set_heap heap].
  unfold training_batches, create_array_of_batches, mbind, result_bind.
  repeat case_match; simplify_eq; done.
Qed.
End Training.

(** ** What the loops keep *)

Section Kept.
Context {Model : Type}.
Context (fit : Model → ndarray → ndarray → Z → Z → result Model).
Context (predict : Model → ndarray → result ndarray).
Context (fmt : Z * Z).

#[local] Instance objects_kept_preorder : PreOrder (@objects_kept Model).
Proof. split; [by intros st l x|]. intros a b c Hab Hbc l x H. eauto. Qed.

#[local] Instance attributes_kept_preorder : PreOrder (@attributes_kept Model).
Proof.
  split; [by intros st|].
  intros a b c (?&?&?&?) (?&?&?&?). unfold attributes_kept.
  repeat split; congruence.
Qed.

Lemma objects_kept_alloc (st : @State Model) y :
  objects_kept st (set_heap (insert (fresh (dom (heap st))) y) st).
Proof.
  intros l x Hl. cbn [heap set_heap].
  rewrite lookup_insert_ne; [done|]. by eapply fresh_ne.
Qed.

Lemma deref_none l (st : @State Model) :
  heap st !! l = None → deref l st = (Raise ReferenceError, st).
Proof. intros H. unfold deref. by rewrite H. Qed.

(** [disaggregate_step] changes neither an existing object, nor the
    instance, nor the files, nor the saved metadata. *)
Lemma disaggregate_step_kept bp ml c lv (st : @State Model) :
  let st' := (disaggregate_step predict fmt bp ml c lv st).2 in
  objects_kept st st' ∧ self st' = self st ∧ files st' = files st ∧
  saved_metadata (output_datastore st')
  = saved_metadata (output_datastore st).
Proof.
  destruct (heap st !! ref c) as [x|] eqn:Hl.
  - rewrite (disaggregate_step_run predict fmt bp ml c lv st x Hl).
    pose proof (objects_kept_alloc st) as Hal.
    repeat case_match; cbn [snd]; try done; split; try done; apply Hal.
  - unfold disaggregate_step, mbind, M_bind.
    by rewrite (deref_none _ _ Hl).
Qed.

Lemma disaggregate_loop_kept bp ml cs lv (st : @State Model) :
  let st' := (disaggregate_loop predict fmt bp ml cs lv st).2 in
  objects_kept st st' ∧ self st' = self st ∧ files st' = files st ∧
  saved_metadata (output_datastore st')
  = saved_metadata (output_datastore st).
Proof.
  revert lv st. induction cs as [|c cs IH]; intros lv st; [done|].
  cbn [disaggregate_loop]. unfold mbind, M_bind.
  pose proof (disaggregate_step_kept bp ml c lv st) as Hstep.
  cbv zeta in Hstep.
  destruct (disaggregate_step predict fmt bp ml c lv st) as [[lv'|e] st1];
    [|done].
  cbn [snd] in Hstep. destruct Hstep as (Ho & Hs & Hf & Hm).
  specialize (IH lv' st1). cbv zeta in IH.
  destruct IH as (Ho' & Hs' & Hf' & Hm').
  split; [by etrans|]. repeat split; congruence.
Qed.

Lemma disaggregate_kept mains kw (st : @State Model) :
  let st' := (disaggregate predict fmt mains kw st).2 in
  objects_kept st st' ∧ self st' = self st ∧ files st' = files st.
Proof.
  unfold disaggregate. cbv zeta. unfold mbind, M_bind.
  match goal with
  | |- context [disaggregate_loop predict fmt ?bp ?ml ?cs ?lv st] =>
      pose proof (disaggregate_loop_kept bp ml cs lv st) as Hloop;
      cbv zeta in Hloop;
      destruct (disaggregate_loop predict fmt bp ml cs lv st)
        as [[lv'|e] st1]
  end; cbn [snd] in Hloop; destruct Hloop as (Ho & Hs & Hf & _); [|done].
  destruct (data_is_available lv'); [|done].
  unfold gets, _save_metadata_for_disaggregation, modify. done.
Qed.

Lemma normalize_new_run l scale (st : @State Model) :
  normalize_new fmt l scale st
  = match heap st !! l with
    | None => (Raise ReferenceError, st)
    | Some x =>
        match scale with
        | None => (Raise TypeError, st)
        | Some m =>
            let l' := fresh (dom (heap st)) in
            (Ok l', set_heap (insert l' (_normalize (SFdiv fmt.1 fmt.2) x m)) st)
        end
    end.
Proof.
  unfold normalize_new, mbind, M_bind, deref.
  destruct (heap st !! l); [|done]. by destruct scale.
Qed.

Lemma train_step_run mc tc epochs batch_size (st : @State Model) x1 x2 m :
  heap st !! ref mc = Some x1 → heap st !! ref tc = Some x2 →
  mmax (self st) = Some m →
  train_step fit fmt mc tc epochs batch_size st
  = let st1 := set_heap (trained_heap fmt m x1 x2) st in
    match
      training_batches (sequence_length (self st))
        (fillna (_normalize (SFdiv fmt.1 fmt.2) x1 m) fzero)
        (fillna (_normalize (SFdiv fmt.1 fmt.2) x2 m) fzero)
    with
    | Raise e => (Raise e, st1)
    | Ok (X_batch, Y_batch) =>
        match fit (model (self st)) X_batch Y_batch batch_size epochs with
        | Raise e => (Raise e, st1)
        | Ok m' => (Ok (), set_self (set_model m') st1)
        end
    end.
Proof.
  intros H1 H2 Hm. unfold train_step.
  unfold mbind at 1 2, M_bind at 1 2, gets at 1. cbv beta iota.
  rewrite normalize_new_run, H1, Hm. cbv zeta.
  set (n1 := _normalize (SFdiv fmt.1 fmt.2) x1 m).
  set (n2 := _normalize (SFdiv fmt.1 fmt.2) x2 m).
  set (l1 := fresh (dom (heap st))).
  assert (Hl1 : l1 ≠ ref tc) by (eapply fresh_ne; eauto).
  unfold mbind at 1 2, M_bind at 1 2, gets at 1. cbv beta iota.
  rewrite normalize_new_run. cbn [heap set_heap self].
  rewrite lookup_insert_ne, H2, Hm by done. cbv zeta.
  set (l2 := fresh (dom (<[l1:=n1]> (heap st)))).
  assert (Hl2 : l2 ≠ l1).
  { eapply (fresh_ne (<[l1:=n1]> (heap st))). apply lookup_insert_eq. }
  rewrite (train_on_chunk_run fit l1 l2 n1 n2); [|done| |]; cycle 1.
  { cbn [heap set_heap]. rewrite lookup_insert_ne by done.
    apply lookup_insert_eq. }
  { cbn [heap set_heap]. apply lookup_insert_eq. }
  cbv zeta. cbn [self set_heap heap].
  assert (Hheap : <[l2:=fillna n2 fzero]>
                    (<[l1:=fillna n1 fzero]> (<[l2:=n2]> (<[l1:=n1]> (heap st))))
                  = trained_heap fmt m x1 x2 (heap st)).
  { unfold trained_heap. cbv zeta. fold n1 n2 l1 l2.
    apply map_eq. intros i.
    destruct (decide (i = l2)) as [->|]; [by rewrite !lookup_insert_eq|].
    destruct (decide (i = l1)) as [->|].
    - rewrite !(lookup_insert_ne _ l2 l1) by done.
      by rewrite !lookup_insert_eq.
    - by rewrite !lookup_insert_ne by congruence. }
  unfold set_heap. cbn [heap self output_datastore files]. fold n2.
  rewrite Hheap. done.
Qed.

Lemma train_on_chunk_effect l1 l2 epochs batch_size (st : @State Model) :
  let st' := (train_on_chunk fit l1 l2 epochs batch_size st).2 in
  (∀ l, l ≠ l1 → l ≠ l2 → heap st' !! l = heap st !! l) ∧
  attributes_kept st st' ∧
  output_datastore st' = output_datastore st ∧ files st' = files st.
Proof.
  unfold train_on_chunk, fillna_inplace, attributes_kept.
  unfold mbind, M_bind, gets, modify, lift, deref. cbv beta iota zeta.
  repeat case_match; simplify_eq; cbn [snd heap self set_heap set_self
    set_model mmax sequence_length MIN_CHUNK_LENGTH meter_metadata
    output_datastore files];
    (split; [|done]); intros l Hl1 Hl2;
    by rewrite ?lookup_insert_ne by congruence.
Qed.

Lemma train_step_kept mc tc epochs batch_size (st : @State Model) :
  let st' := (train_step fit fmt mc tc epochs batch_size st).2 in
  objects_kept st st' ∧ attributes_kept st st' ∧
  output_datastore st' = output_datastore st ∧ files st' = files st.
Proof.
  unfold train_step. unfold mbind, M_bind, gets. cbv beta iota.
  rewrite normalize_new_run.
  destruct (heap st !! ref mc) as [x1|]; [|done].
  destruct (mmax (self st)) as [m|] eqn:Hm; [|done].
  cbv beta iota zeta. set (st1 := set_heap _ st).
  rewrite normalize_new_run. replace (mmax (self st1)) with (Some m) by done.
  assert (Hk1 : objects_kept st st1) by apply objects_kept_alloc.
  destruct (heap st1 !! ref tc) as [x2|]; [|done].
  cbv beta iota zeta.
  set (l1 := fresh (dom (heap st))) in *.
  set (l2 := fresh (dom (heap st1))).
  set (st2 := set_heap _ st1).
  assert (Hk2 : objects_kept st1 st2) by apply objects_kept_alloc.
  pose proof (train_on_chunk_effect l1 l2 epochs batch_size st2) as He.
  cbv zeta in He.
  destruct (train_on_chunk fit l1 l2 epochs batch_size st2) as [r st3].
  cbn [snd] in He. destruct He as (Hh & Ha & Ho & Hf).
  change (objects_kept st st3 ∧ attributes_kept st st3 ∧
          output_datastore st3 = output_datastore st ∧
          files st3 = files st).
  split; [|done].
  intros l x Hl. rewrite Hh.
  - by apply Hk2, Hk1.
  - by eapply not_eq_sym, fresh_ne.
  - eapply not_eq_sym, fresh_ne. by apply Hk1.
Qed.

Lemma train_loop_kept mains meters mc tc epochs batch_size
    (st : @State Model) :
  let st' := (train_loop fit fmt mains meters mc tc epochs batch_size st).2 in
  objects_kept st st' ∧ attributes_kept st st' ∧
  output_datastore st' = output_datastore st ∧ files st' = files st.
Proof.
  revert meters mc tc st.
  induction mains as [|mc' mains IH]; intros meters mc tc st;
    cbn [train_loop]; unfold mbind, M_bind;
    pose proof (train_step_kept mc tc epochs batch_size st) as Hstep;
    cbv zeta in Hstep;
    destruct (train_step fit fmt mc tc epochs batch_size st) as [[[]|e] st1];
    cbn [snd] in Hstep; try done.
  destruct meters as [|tc' meters]; [done|].
  specialize (IH meters mc' tc' st1). cbv zeta in IH.
  destruct Hstep as (Ho & Ha & Hd & Hf), IH as (Ho' & Ha' & Hd' & Hf').
  split; [by etrans|]. split; [by etrans|]. split; congruence.
Qed.

Lemma train_run mains meter epochs batch_size (st : @State Model) :
  train fit fmt mains meter epochs batch_size st
  = match power_series mains, power_series meter with
    | c :: cs, c' :: cs' =>
        match mmax (self st) with
        | Some _ => train_loop fit fmt cs cs' c c' epochs batch_size st
        | None =>
            match heap st !! ref c with
            | Some x =>
                train_loop fit fmt cs cs' c c' epochs batch_size
                  (set_self (set_mmax (series_max x)) st)
            | None => (Raise ReferenceError, st)
            end
        end
    | _, _ => (Raise StopIteration, st)
    end.
Proof.
  unfold train.
  destruct (power_series mains) as [|c cs]; [done|].
  destruct (power_series meter) as [|c' cs']; [done|].
  unfold mbind, M_bind, gets, mret, M_ret, modify, deref.
  destruct (mmax (self st)); [done|].
  by destruct (heap st !! ref c).
Qed.

(** [train] writes the scale only when it is unset, and then with the
    maximum of the first mains chunk. *)
Lemma train_kept mains meter epochs batch_size (st : @State Model) :
  let st' := (train fit fmt mains meter epochs batch_size st).2 in
  objects_kept st st' ∧
  output_datastore st' = output_datastore st ∧ files st' = files st ∧
  sequence_length (self st') = sequence_length (self st) ∧
  MIN_CHUNK_LENGTH (self st') = MIN_CHUNK_LENGTH (self st) ∧
  meter_metadata (self st') = meter_metadata (self st) ∧
  match mmax (self st) with
  | Some m => mmax (self st') = Some m
  | None =>
      match power_series mains, power_series meter with
      | c :: _, _ :: _ =>
          match heap st !! ref c with
          | Some x => mmax (self st') = Some (series_max x)
          | None => mmax (self st') = None
          end
      | _, _ => mmax (self st') = None
      end
  end.
Proof.
  rewrite train_run.
  destruct (power_series mains) as [|c cs].
  { cbn [snd]. by destruct (mmax (self st)). }
  destruct (power_series meter) as [|c' cs'].
  { cbn [snd]. by destruct (mmax (self st)). }
  destruct (mmax (self st)) as [m|] eqn:Hm.
  - pose proof (train_loop_kept cs cs' c c' epochs batch_size st) as Hl.
    cbv zeta in Hl.
    destruct Hl as (Ho & (Ha1 & Ha2 & Ha3 & Ha4) & Hd & Hf).
    cbv zeta. repeat split; try done; congruence.
  - destruct (heap st !! ref c) as [x|] eqn:Hc; [|done].
    set (st1 := set_self _ st).
    pose proof (train_loop_kept cs cs' c c' epochs batch_size st1) as Hl.
    cbv zeta in Hl.
    destruct Hl as (Ho & (Ha1 & Ha2 & Ha3 & Ha4) & Hd & Hf).
    cbv zeta. repeat split; done.
Qed.
End Kept.

(** ** The disaggregation loop *)

Section Emits.
Context {Model : Type}.
Context (predict : Model → ndarray → result ndarray).
Context (fmt : Z * Z).


Lemma disaggregate_loop_cons bp ml c cs lv (st : @State Model) :
  disaggregate_loop predict fmt bp ml (c :: cs) lv st
  = match disaggregate_step predict fmt bp ml c lv st with
    | (Ok lv', st') => disaggregate_loop predict fmt bp ml cs lv' st'
    | (Raise e, st') => (Raise e, st')
    end.
Proof. done. Qed.

End Emits.

(** ** The claims on the disaggregation loop *)

Section DisaggregateClaims.
Context {Model : Type}.
Context (predict : Model → ndarray → result ndarray).
Context (fmt : Z * Z).

Lemma disaggregate_run mains kw (st : @State Model) :
  disaggregate predict fmt mains kw st
  = let building_path := "/building" +:+ pretty (building mains) in
    match disaggregate_loop predict fmt building_path
            (building_path +:+ "/elec/meter1") (power_series mains)
            (mk_Locals [] None false) st with
    | (Ok lv, st') =>
        if data_is_available lv then
          (Ok (),
           set_output (λ ds, mk_DataStore (appended ds)
             (Some (mk_Metadata
                      (default 60 (setdefault "sample_period" 60 kw
                                     !! "sample_period"))
                      (measurement lv) (timeframes lv) (building mains)
                      [meter_metadata (self st')]))) st')
        else (Ok (), st')
    | (Raise e, st') => (Raise e, st')
    end.
Proof.
  unfold disaggregate. cbv zeta. unfold mbind, M_bind.
  destruct (disaggregate_loop _ _ _ _ _ _ st) as [[lv|e] st']; [|done].
  by destruct (data_is_available lv).
Qed.
End DisaggregateClaims.


(** ** Short chunks *)

Section Skip.
Context {Model : Type}.
Context (predict : Model → ndarray → result ndarray).
Context (fmt : Z * Z).

Lemma disaggregate_step_skip bp ml c lv (st : @State Model) x :
  heap st !! ref c = Some x →
  len x < MIN_CHUNK_LENGTH (self st) →
  disaggregate_step predict fmt bp ml c lv st = (Ok lv, st).
Proof.
  intros Hc Hlen. rewrite (disaggregate_step_run predict fmt _ _ _ _ _ x Hc).
  by destruct (Z.ltb_spec (len x) (MIN_CHUNK_LENGTH (self st))); [|lia].
Qed.

Lemma disaggregate_loop_skip bp ml pre c post lv (st : @State Model) x :
  heap st !! ref c = Some x →
  len x < MIN_CHUNK_LENGTH (self st) →
  disaggregate_loop predict fmt bp ml (pre ++ c :: post) lv st
  = disaggregate_loop predict fmt bp ml (pre ++ post) lv st.
Proof.
  revert lv st. induction pre as [|c' pre IH]; intros lv st Hc Hlen.
  - cbn [app]. rewrite disaggregate_loop_cons.
    by rewrite (disaggregate_step_skip bp ml c lv st x).
  - cbn [app]. rewrite !disaggregate_loop_cons.
    pose proof (disaggregate_step_kept predict fmt bp ml c' lv st) as Hk.
    cbv zeta in Hk.
    destruct (disaggregate_step predict fmt bp ml c' lv st)
      as [[lv'|e] st1]; [|done].
    cbn [snd] in Hk. destruct Hk as (Ho & Hs & _).
    apply IH; [by apply Ho|by rewrite Hs].
Qed.
End Skip.

(** C6: a mains chunk shorter than [sequence_length] is skipped without an
    error: its iteration returns the loop's variables and the whole state as
    they were (no row appended, no timeframe added, the scale as before),
    and the run over the stream is the run over the stream without it. *)
Theorem short_chunk_is_skipped {Model : Type}
    (predict : Model → ndarray → result ndarray) (fmt : Z * Z)
    (st : @State Model) (kw : gmap string Z) (b : Z)
    (pre post : list Chunk) (c : Chunk) (x : Series float) :
  heap st !! ref c = Some x →
  MIN_CHUNK_LENGTH (self st) = sequence_length (self st) →
  len x < sequence_length (self st) →
  (∀ bp ml lv,
     disaggregate_step predict fmt bp ml c lv st = (Ok lv, st)) ∧
  disaggregate predict fmt (mk_ElecMeter b (pre ++ c :: post)) kw st
  = disaggregate predict fmt (mk_ElecMeter b (pre ++ post)) kw st.
Proof.
  intros Hc Hmin Hlen. rewrite <- Hmin in Hlen. split.
  - intros bp ml lv. by apply (disaggregate_step_skip predict fmt _ _ _ _ _ x).
  - rewrite !disaggregate_run. cbn [power_series building].
    by rewrite (disaggregate_loop_skip predict fmt _ _ pre c post _ st x).
Qed.

Lemma short_chunk_is_skipped_witness :
  (∀ bp ml lv,
     disaggregate_step negating_predict binary32 bp ml (mk_Chunk 2 (3, 3)) lv
       scaled_state
     = (Ok lv, scaled_state)) ∧
  disaggregate negating_predict binary32
    (mk_ElecMeter 1 ([mk_Chunk 1 (1, 2)] ++ mk_Chunk 2 (3, 3) :: [])) ∅
    scaled_state
  = disaggregate negating_predict binary32
      (mk_ElecMeter 1 ([mk_Chunk 1 (1, 2)] ++ [])) ∅ scaled_state.
Proof.
  exact (short_chunk_is_skipped negating_predict binary32 scaled_state ∅ 1
           [mk_Chunk 1 (1, 2)] [] (mk_Chunk 2 (3, 3)) one_reading
           eq_refl eq_refl eq_refl).
Defined.

(** [__init__] makes the minimum chunk length the window size, and no
    method changes either. *)
Lemma init_min_chunk_length {Model : Type} (create_model : Z → Model)
    (meter s : Z) :
  MIN_CHUNK_LENGTH (__init__ create_model meter s)
  = sequence_length (__init__ create_model meter s) ∧
  mmax (__init__ create_model meter s) = None.
Proof. done. Qed.

(** ** Input chunks *)

(** C9, as the code has it: [train] and [disaggregate] leave every Series
    object of the caller as it was, because they normalise each chunk into
    a new Series and fill the missing readings of that copy; the chunk-level
    entry points [disaggregate_chunk] and [train_on_chunk] fill the missing
    readings of the Series they are given in place. *)
Theorem loops_keep_chunks_entry_points_fill_in_place {Model : Type}
    (fit : Model → ndarray → ndarray → Z → Z → result Model)
    (predict : Model → ndarray → result ndarray) (fmt : Z * Z)
    (st : @State Model) (mains meter : ElecMeter) (epochs batch_size : Z)
    (kw : gmap string Z) (l : loc) (x : Series float) :
  heap st !! l = Some x →
  heap (train fit fmt mains meter epochs batch_size st).2 !! l = Some x ∧
  heap (disaggregate predict fmt mains kw st).2 !! l = Some x ∧
  heap (disaggregate_chunk predict l st).2 !! l = Some (fillna x fzero) ∧
  (∀ l' x', l ≠ l' → heap st !! l' = Some x' →
     let st' := (train_on_chunk fit l l' epochs batch_size st).2 in
     heap st' !! l = Some (fillna x fzero) ∧
     heap st' !! l' = Some (fillna x' fzero)).
Proof.
  intros Hl. split; [|split; [|split]].
  - by apply (train_kept fit fmt mains meter epochs batch_size st).
  - by apply (disaggregate_kept predict fmt mains kw st).
  - rewrite (disaggregate_chunk_run predict l x st Hl). cbn [snd heap set_heap].
    apply lookup_insert_eq.
  - intros l' x' Hne Hl'. cbv zeta.
    rewrite (train_on_chunk_run fit l l' x x' _ _ st Hne Hl Hl'). cbv zeta.
    assert (Hh : ∀ st1 : @State Model,
      heap st1 = <[l' := fillna x' fzero]> (<[l := fillna x fzero]> (heap st)) →
      heap st1 !! l = Some (fillna x fzero) ∧
      heap st1 !! l' = Some (fillna x' fzero)).
    { intros st1 ->. rewrite lookup_insert_ne by done.
      by rewrite !lookup_insert_eq. }
    repeat case_match; apply Hh; done.
Qed.

Lemma loops_keep_chunks_entry_points_fill_in_place_witness :
  heap (train idle_fit binary32 example_mains example_mains 1 16
          scaled_state).2 !! 3%positive = Some gappy_series ∧
  heap (disaggregate identity_predict binary32
          (mk_ElecMeter 1 [mk_Chunk 3 (1, 3)]) ∅ scaled_state).2 !! 3%positive
  = Some gappy_series ∧
  heap (disaggregate_chunk identity_predict 3%positive scaled_state).2
    !! 3%positive
  = Some (fillna gappy_series fzero).
Proof.
  destruct (loops_keep_chunks_entry_points_fill_in_place idle_fit
              identity_predict binary32 scaled_state example_mains
              example_mains 1 16 ∅ 3%positive gappy_series eq_refl)
    as (Ht & _ & Hc & _).
  destruct (loops_keep_chunks_entry_points_fill_in_place idle_fit
              identity_predict binary32 scaled_state
              (mk_ElecMeter 1 [mk_Chunk 3 (1, 3)])
              example_mains 1 16 ∅ 3%positive gappy_series eq_refl)
    as (_ & Hd & _ & _).
  exact (conj Ht (conj Hd Hc)).
Defined.

(** C9 fails as stated: [disaggregate_chunk] writes 0 over the missing
    reading of the Series it is given. *)
Lemma disaggregate_chunk_mutates_its_argument :
  let st' := (disaggregate_chunk identity_predict 3%positive scaled_state).2 in
  rows <$> heap scaled_state !! 3%positive
  = Some [(1, f32 10); (2, S754_nan); (3, f32 30)] ∧
  rows <$> heap st' !! 3%positive
  = Some [(1, f32 10); (2, fzero); (3, f32 30)] ∧
  heap st' !! 3%positive ≠ heap scaled_state !! 3%positive.
Proof. vm_compute. repeat split; done. Qed.

(** ** The maximum of a chunk *)

Lemma SFleb_refl a : isnan a = false → SFleb a a = true.
Proof.
  destruct a as [[]|[]| |[] m e]; try done; intros _; unfold SFleb, SFcompare;
    rewrite Z.compare_refl; change (Pos.compare_cont Eq m m) with (m ?= m)%positive;
    by rewrite Pos.compare_refl.
Qed.

Lemma SFltb_leb a b : SFltb a b = true → SFleb a b = true.
Proof. unfold SFltb, SFleb. by destruct (SFcompare a b) as [[]|]. Qed.

Lemma SFleb_total a b :
  isnan a = false → isnan b = false → SFltb a b = false → SFleb b a = true.
Proof.
  destruct a as [[]|[]| |[] ma ea], b as [[]|[]| |[] mb eb]; try done;
    intros _ _; unfold SFltb, SFleb, SFcompare;
    rewrite (Z.compare_antisym ea eb);
    change (Pos.compare_cont Eq mb ma) with (mb ?= ma)%positive;
    change (Pos.compare_cont Eq ma mb) with (ma ?= mb)%positive;
    rewrite (Pos.compare_antisym ma mb);
    by destruct (ea ?= eb), (ma ?= mb)%positive.
Qed.

Lemma SFleb_trans a b c :
  SFleb a b = true → SFleb b c = true → SFleb a c = true.
Proof.
  destruct a as [[]|[]| |[] ma ea], b as [[]|[]| |[] mb eb],
    c as [[]|[]| |[] mc ec]; try done;
    unfold SFleb, SFcompare;
    change (Pos.compare_cont Eq ma mb) with (ma ?= mb)%positive;
    change (Pos.compare_cont Eq mb mc) with (mb ?= mc)%positive;
    change (Pos.compare_cont Eq ma mc) with (ma ?= mc)%positive;
    destruct (Z.compare_spec ea eb), (Z.compare_spec eb ec),
      (Z.compare_spec ea ec); try done; try lia;
    destruct (Pos.compare_spec ma mb), (Pos.compare_spec mb mc),
      (Pos.compare_spec ma mc); try done; lia.
Qed.

Lemma fmax_upper a r :
  (isnan a = false → SFleb a (fmax a r) = true) ∧
  (∀ v, SFleb v r = true → SFleb v (fmax a r) = true).
Proof.
  unfold fmax. destruct (isnan a) eqn:Ha; [by split|].
  destruct (isnan r) eqn:Hr.
  { split; [intros _; by apply SFleb_refl|]. intros v Hv.
    destruct r; try done. by destruct v. }
  destruct (SFltb a r) eqn:Hlt.
  - split; [intros _; by apply SFltb_leb|done].
  - split; [intros _; by apply SFleb_refl|].
    intros v Hv. apply (SFleb_trans v r a); [done|]. by apply SFleb_total.
Qed.

(** [series_max] is an upper bound of the readings that are not NaN. *)
Lemma series_max_upper_bound (x : Series float) v :
  v ∈ values x → isnan v = false → SFleb v (series_max x) = true.
Proof.
  unfold series_max. induction (values x) as [|a vs IH]; intros Hin Hv.
  - by apply elem_of_nil in Hin.
  - cbn [foldr]. apply elem_of_cons in Hin as [->|Hin].
    + by apply (proj1 (fmax_upper _ _)).
    + apply (proj2 (fmax_upper _ _)). by apply IH.
Qed.

(** [series_max] is one of the readings, or NaN when every reading is. *)
Lemma series_max_attained (x : Series float) :
  series_max x ∈ values x ∨
  (series_max x = S754_nan ∧ Forall (λ v, isnan v = true) (values x)).
Proof.
  unfold series_max. induction (values x) as [|a vs IH]; [by right|].
  cbn [foldr]. set (r := foldr fmax S754_nan vs) in *. unfold fmax.
  destruct (isnan a) eqn:Ha.
  - destruct IH as [IH|[IH1 IH2]]; [left; apply elem_of_cons; by right|].
    right. split; [done|]. by constructor.
  - destruct (isnan r) eqn:Hr; [left; apply elem_of_cons; by left|].
    destruct (SFltb a r); [|left; apply elem_of_cons; by left].
    destruct IH as [IH|[IH1 IH2]]; [left; apply elem_of_cons; by right|].
    by rewrite IH1 in Hr.
Qed.

(** ** The scale *)

Section Scale.
Context {Model : Type}.
Context (fit : Model → ndarray → ndarray → Z → Z → result Model).
Context (predict : Model → ndarray → result ndarray).
Context (fmt : Z * Z).

Lemma run_call_keeps_scale c (st : @State Model) m :
  mmax (self st) = Some m →
  mmax (self (run_call fit predict fmt c st)) = Some m.
Proof.
  intros Hm. destruct c as [mains meter epochs batch_size|mains kw];
    cbn [run_call].
  - pose proof (train_kept fit fmt mains meter epochs batch_size st) as H.
    cbv zeta in H. rewrite Hm in H. apply H.
  - destruct (disaggregate_kept predict fmt mains kw st) as (_ & -> & _).
    done.
Qed.

Lemma run_calls_keep_scale cs (st : @State Model) m :
  mmax (self st) = Some m →
  mmax (self (run_calls fit predict fmt cs st)) = Some m.
Proof.
  revert st. unfold run_calls.
  induction cs as [|c cs IH]; intros st Hm; [done|].
  cbn [foldl]. by apply IH, run_call_keeps_scale.
Qed.
End Scale.

(** C5: the scale is written at most once.  When it is unset, [train] sets
    it to the maximum of the first mains chunk (an upper bound of the
    readings of that chunk, and one of them); once it is set, no call of
    [train] or [disaggregate], and no sequence of such calls, writes it, be
    the later chunks larger or not; [disaggregate] never writes it. *)
Theorem scale_is_set_at_most_once {Model : Type}
    (fit : Model → ndarray → ndarray → Z → Z → result Model)
    (predict : Model → ndarray → result ndarray) (fmt : Z * Z)
    (st : @State Model) (mains meter : ElecMeter) (epochs batch_size : Z)
    (kw : gmap string Z) (calls : list call) :
  let st1 := (train fit fmt mains meter epochs batch_size st).2 in
  (∀ c cs c' cs' x,
     mmax (self st) = None →
     power_series mains = c :: cs → power_series meter = c' :: cs' →
     heap st !! ref c = Some x →
     mmax (self st1) = Some (series_max x) ∧
     (∀ v, v ∈ values x → isnan v = false → SFleb v (series_max x) = true) ∧
     (series_max x ∈ values x ∨
      series_max x = S754_nan ∧ Forall (λ v, isnan v = true) (values x))) ∧
  (∀ m, mmax (self st) = Some m → mmax (self st1) = Some m) ∧
  mmax (self (disaggregate predict fmt mains kw st).2) = mmax (self st) ∧
  (∀ m, mmax (self st1) = Some m →
     mmax (self (run_calls fit predict fmt calls st1)) = Some m).
Proof.
  intros st1.
  pose proof (train_kept fit fmt mains meter epochs batch_size st) as Ht.
  cbv zeta in Ht. fold st1 in Ht.
  destruct Ht as (_ & _ & _ & _ & _ & _ & Ht).
  split; [|split; [|split]].
  - intros c cs c' cs' x Hn Hm Hm' Hx. rewrite Hn, Hm, Hm', Hx in Ht.
    split; [done|]. split; [apply series_max_upper_bound|].
    apply series_max_attained.
  - intros m Hm. by rewrite Hm in Ht.
  - by destruct (disaggregate_kept predict fmt mains kw st) as (_ & -> & _).
  - intros m Hm. by apply run_calls_keep_scale.
Qed.

(** The scale stays at 30, the maximum of the first chunk, while the second
    chunk reaches 90, and through a later call over larger chunks. *)
Example scale_from_first_chunk :
  let st1 := (train idle_fit binary32 later_is_larger later_is_larger 1 16
                unscaled_state).2 in
  mmax (self st1) = Some (f32 30) ∧
  mmax (self (run_calls idle_fit identity_predict binary32
                [Train example_mains example_mains 1 16;
                 Disaggregate example_mains ∅] st1)) = Some (f32 30).
Proof. vm_compute. done. Qed.

Lemma scale_is_set_at_most_once_witness :
  let st1 := (train idle_fit binary32 later_is_larger later_is_larger 1 16
                unscaled_state).2 in
  mmax (self st1) = Some (series_max gappy_series) ∧
  mmax (self (run_calls idle_fit identity_predict binary32
                [Train example_mains example_mains 1 16;
                 Disaggregate example_mains ∅] st1))
  = Some (series_max gappy_series).
Proof.
  destruct (scale_is_set_at_most_once idle_fit identity_predict binary32
              unscaled_state later_is_larger later_is_larger 1 16 ∅
              [Train example_mains example_mains 1 16;
               Disaggregate example_mains ∅])
    as (Hset & _ & _ & Hkeep).
  destruct (Hset (mk_Chunk 3 (1, 3)) [mk_Chunk 1 (4, 5)]
              (mk_Chunk 3 (1, 3)) [mk_Chunk 1 (4, 5)] gappy_series
              eq_refl eq_refl eq_refl eq_refl) as (Hmax & _).
  exact (conj Hmax (Hkeep _ Hmax)).
Defined.

(** ** Training on the common index *)

Lemma filter_label_absent {R} (rs : list (Z * R)) t :
  t ∉ rs.*1 → filter (λ r, r.1 = t) rs = [].
Proof.
  induction rs as [|[t' v] rs IH]; [done|]. cbn [fmap list_fmap].
  intros Hn. apply not_elem_of_cons in Hn as [Hne Hn].
  rewrite filter_cons. cbn [fst]. destruct (decide (t' = t)); [done|].
  by apply IH.
Qed.

Lemma filter_label_unique {R} (rs : list (Z * R)) t :
  NoDup rs.*1 → t ∈ rs.*1 →
  ∃ v, filter (λ r, r.1 = t) rs = [(t, v)] ∧ (t, v) ∈ rs.
Proof.
  induction rs as [|[t' v] rs IH]; [by intros _ ?%elem_of_nil|].
  cbn [fmap list_fmap fst]. intros [Hn Hnd]%NoDup_cons Hin.
  rewrite filter_cons. cbn [fst]. destruct (decide (t' = t)) as [->|Hne].
  - exists v. rewrite filter_label_absent by done.
    split; [done|]. apply elem_of_cons. by left.
  - apply elem_of_cons in Hin as [->|Hin]; [done|].
    destruct (IH Hnd Hin) as (v' & -> & Hv'). exists v'.
    split; [done|]. apply elem_of_cons. by right.
Qed.

Lemma increasing_NoDup ix : increasing ix → NoDup ix.
Proof.
  induction 1 as [|t ix _ IH Hall]; constructor; [|done].
  intros Hin. rewrite Forall_forall in Hall. specialize (Hall t Hin). lia.
Qed.

Lemma elem_of_intersection a b (t : Z) :
  t ∈ intersection a b ↔ t ∈ a ∧ t ∈ b.
Proof. unfold intersection. rewrite list_elem_of_filter. tauto. Qed.

(** Selecting labels that each occur once: one row per label, in the order
    of the labels, each a row of the series. *)
Lemma getitem_unique {R} (x : Series R) ix :
  NoDup (index x) → Forall (λ t, t ∈ index x) ix →
  index (getitem x ix) = ix ∧
  Forall (λ r, r ∈ rows x) (rows (getitem x ix)).
Proof.
  intros Hnd. unfold getitem, index at 2. cbn [rows].
  induction ix as [|t ix IH]; intros Hall; [done|].
  inversion Hall as [|? ? Ht Hix]; subst.
  destruct (filter_label_unique (rows x) t Hnd Ht) as (v & Hf & Hv).
  destruct (IH Hix) as [IH1 IH2].
  rewrite bind_cons, Hf. cbn [app fmap list_fmap fst].
  split; [by f_equal|]. by constructor.
Qed.

(** C8: [train_on_chunk] reduces the two chunks (distinct Series with
    increasing time indices) to the labels present in both indices, and
    builds the two batches from the reduced series with one padding and one
    shape: position [k] of either batch, in window [k / s] at offset
    [k mod s], holds the reading at the [k]-th common timestamp, of the
    mains in the one and of the meter in the other. *)
Theorem training_windows_on_common_index {Model : Type}
    (fit : Model → ndarray → ndarray → Z → Z → result Model)
    (st : @State Model) (l1 l2 : loc) (x1 x2 : Series float)
    (epochs batch_size : Z) :
  0 < sequence_length (self st) →
  l1 ≠ l2 → heap st !! l1 = Some x1 → heap st !! l2 = Some x2 →
  increasing (index x1) → increasing (index x2) →
  let s := sequence_length (self st) in
  let main := fillna x1 fzero in
  let meter := fillna x2 fzero in
  let ix := intersection (index x1) (index x2) in
  let n := Z.of_nat (length ix) in
  let zeros := replicate (Z.to_nat (pad s n)) fzero in
  let X := mk_ndarray [n / s + 1; s; 1] (values (getitem main ix) ++ zeros) in
  let Y := mk_ndarray [n / s + 1; s; 1] (values (getitem meter ix) ++ zeros) in
  (∀ t, t ∈ ix ↔ t ∈ index x1 ∧ t ∈ index x2) ∧
  index (getitem main ix) = ix ∧ index (getitem meter ix) = ix ∧
  training_batches s main meter = Ok (X, Y) ∧
  (train_on_chunk fit l1 l2 epochs batch_size st).1
  = (fit (model (self st)) X Y batch_size epochs ≫= λ _, Ok ()) ∧
  (∀ (k : nat) t, ix !! k = Some t →
     ∃ v1 v2, (t, v1) ∈ rows main ∧ (t, v2) ∈ rows meter ∧
       item3 X (Z.of_nat k / s) (Z.of_nat k mod s) 0 = Some v1 ∧
       item3 Y (Z.of_nat k / s) (Z.of_nat k mod s) 0 = Some v2).
Proof.
  intros Hs Hne H1 H2 Hnd1%increasing_NoDup Hnd2%increasing_NoDup.
  intros s main meter ix n zeros X Y.
  assert (Hix : ∀ t, t ∈ ix ↔ t ∈ index x1 ∧ t ∈ index x2)
    by apply elem_of_intersection.
  assert (Hi1 : index main = index x1) by apply index_fillna.
  assert (Hi2 : index meter = index x2) by apply index_fillna.
  destruct (getitem_unique main ix) as [Hg1 Hr1].
  { by rewrite Hi1. }
  { apply Forall_forall. intros t Ht. rewrite Hi1. by apply Hix. }
  destruct (getitem_unique meter ix) as [Hg2 Hr2].
  { by rewrite Hi2. }
  { apply Forall_forall. intros t Ht. rewrite Hi2. by apply Hix. }
  assert (Hl1 : Z.of_nat (length (values (getitem main ix))) = n).
  { rewrite length_values, <- length_index. by rewrite Hg1. }
  assert (Hl2 : Z.of_nat (length (values (getitem meter ix))) = n).
  { rewrite length_values, <- length_index. by rewrite Hg2. }
  assert (Hb : training_batches s main meter = Ok (X, Y)).
  { unfold training_batches. rewrite Hi1, Hi2. fold ix n.
    pose proof (create_array_of_batches_ok s (values (getitem main ix)) Hs)
      as HX.
    pose proof (create_array_of_batches_ok s (values (getitem meter ix)) Hs)
      as HY.
    cbv zeta in HX, HY. rewrite Hl1 in HX. rewrite Hl2 in HY.
    by rewrite HX, HY. }
  split; [done|]. split; [done|]. split; [done|]. split; [done|]. split.
  { rewrite (train_on_chunk_run fit l1 l2 x1 x2 _ _ st Hne H1 H2). cbv zeta.
    fold s main meter. rewrite Hb.
    by destruct (fit (model (self st)) X Y batch_size epochs). }
  intros k t Hk.
  assert (Hklt : (k < length ix)%nat) by (by eapply lookup_lt_Some).
  assert (Hpos : ∀ B vals, shape B = [n / s + 1; s; 1] →
            data B = vals ++ zeros → Z.of_nat (length vals) = n →
            item3 B (Z.of_nat k / s) (Z.of_nat k mod s) 0 = vals !! k).
  { intros B vals Hsh Hd Hlen.
    pose proof (Z.mod_pos_bound (Z.of_nat k) s Hs).
    pose proof (Z.div_mod (Z.of_nat k) s ltac:(lia)) as Hdm.
    assert (0 ≤ Z.of_nat k / s) by (apply Z.div_pos; lia).
    assert (Z.of_nat k / s ≤ n / s) by (apply Z.div_le_mono; lia).
    rewrite (item3_flat B (n / s + 1) s) by (done || lia).
    replace (Z.to_nat (Z.of_nat k / s * s + Z.of_nat k mod s)) with k by lia.
    rewrite Hd. apply lookup_app_l. lia. }
  assert (Hrow : ∀ y : Series float, index (getitem y ix) = ix →
            Forall (λ r, r ∈ rows y) (rows (getitem y ix)) →
            ∃ v, (t, v) ∈ rows y ∧ values (getitem y ix) !! k = Some v).
  { intros y Hgi Hgr.
    assert (Hk' : index (getitem y ix) !! k = Some t) by (by rewrite Hgi).
    unfold index in Hk'. rewrite list_lookup_fmap in Hk'.
    destruct (rows (getitem y ix) !! k) as [[t' v]|] eqn:Hr; [|done].
    cbn in Hk'. injection Hk' as ->. exists v. split.
    - rewrite Forall_forall in Hgr. apply Hgr.
      by eapply list_elem_of_lookup_2.
    - unfold values. by rewrite list_lookup_fmap, Hr. }
  destruct (Hrow main Hg1 Hr1) as (v1 & Hv1 & Hk1).
  destruct (Hrow meter Hg2 Hr2) as (v2 & Hv2 & Hk2).
  exists v1, v2. split; [done|]. split; [done|].
  rewrite (Hpos X (values (getitem main ix))) by done.
  rewrite (Hpos Y (values (getitem meter ix))) by done.
  done.
Qed.

Lemma training_windows_on_common_index_witness :
  intersection (index gappy_series) (index meter_readings) = [2; 3] ∧
  (∀ t, t ∈ [2; 3] ↔ t ∈ index gappy_series ∧ t ∈ index meter_readings) ∧
  training_batches 2 (fillna gappy_series fzero) (fillna meter_readings fzero)
  = Ok (mk_ndarray [2; 2; 1] [fzero; f32 30; fzero; fzero],
        mk_ndarray [2; 2; 1] [f32 5; fzero; fzero; fzero]).
Proof.
  pose proof (training_windows_on_common_index idle_fit training_state
                1%positive 2%positive gappy_series meter_readings 1 16
                eq_refl ltac:(done) eq_refl eq_refl
                ltac:(repeat constructor) ltac:(repeat constructor)) as H.
  cbv zeta in H. destruct H as (Hix & _ & _ & Hb & _).
  split; [reflexivity|]. split; [exact Hix|exact Hb].
Defined.

(** Mains at the timestamps [1, 2, 3] and a meter at [2, 3, 4]: the
    batches are built from the two samples at [2] and [3], and the caller's
    two Series have their missing readings filled. *)
Example train_on_chunk_overlap :
  let r := train_on_chunk idle_fit 1%positive 2%positive 1 16 training_state in
  r.1 = Ok () ∧
  rows <$> heap r.2 !! 1%positive
  = Some [(1, f32 10); (2, fzero); (3, f32 30)] ∧
  rows <$> heap r.2 !! 2%positive
  = Some [(2, f32 5); (3, fzero); (4, f32 7)].
Proof. vm_compute. done. Qed.

(** * Further properties of the methods *)

(** ** Saving and loading *)

Section Persistence.
Context {Model : Type}.

Lemma import_model_run filename (st : @State Model) :
  import_model filename st
  = match files st !! filename with
    | None => (Raise OSError, st)
    | Some f =>
        match keras_model f with
        | None => (Raise ValueError, st)
        | Some m =>
            let st1 := set_self (set_model m) st in
            match groups f !! "disaggregator-data" with
            | None => (Raise AttributeError, st1)
            | Some gr =>
                match gr !! "mmax" with
                | Some (v :: _) => (Ok (), set_self (set_mmax v) st1)
                | _ => (Raise IndexError, st1)
                end
            end
        end
    end.
Proof.
  unfold import_model, load_model, h5py_File.
  unfold mbind, M_bind, mret, M_ret, modify, raise.
  destruct (files st !! filename) as [f|] eqn:Hf; [|done].
  destruct (keras_model f) as [m|]; [|done].
  cbn [files set_self]. rewrite Hf.
  destruct (groups f !! "disaggregator-data") as [gr|]; [|done].
  by destruct (gr !! "mmax") as [[|v vs]|].
Qed.

Lemma export_model_run filename (st : @State Model) :
  export_model filename st
  = let saved gr :=
      set_files (insert filename
        (mk_H5File (Some (model (self st)))
           (<["disaggregator-data" := gr]> ∅))) st in
    match mmax (self st) with
    | Some v => (Ok (), saved {[ "mmax" := [v] ]})
    | None => (Raise TypeError, saved ∅)
    end.
Proof.
  unfold export_model, h5py_File.
  unfold mbind, M_bind, mret, M_ret, gets, modify, raise.
  cbn [files set_files self]. rewrite lookup_insert_eq.
  cbn [groups keras_model]. rewrite lookup_empty.
  cbn [files set_files self]. unfold set_files.
  cbn [heap self output_datastore files].
  destruct (mmax (self st)); cbn [heap self output_datastore files];
    by rewrite !insert_insert_eq.
Qed.
End Persistence.

(** X1: an exported artifact restores the instance.  After [export_model]
    on an instance whose scale is set, [import_model] of that file, from any
    state that still holds the file as written, succeeds and sets the
    predictor and the scale to the exported ones, and changes nothing
    else. *)
Theorem export_then_import_restores {Model : Type} (st st2 : @State Model)
    (filename : string) (scale : float) :
  mmax (self st) = Some scale →
  files st2 !! filename = files (export_model filename st).2 !! filename →
  (export_model filename st).1 = Ok () ∧
  import_model filename st2
  = (Ok (), set_self (set_mmax scale)
              (set_self (set_model (model (self st))) st2)).
Proof.
  intros Hs Hfile. rewrite export_model_run in *. cbv zeta in *.
  rewrite Hs in *. split; [done|].
  cbn [snd files set_files] in Hfile. rewrite lookup_insert_eq in Hfile.
  rewrite import_model_run, Hfile. cbn [keras_model groups].
  by rewrite lookup_insert_eq, lookup_singleton_eq.
Qed.

Lemma export_then_import_restores_witness :
  let st' := (export_model "out.h5" trained_state).2 in
  (export_model "out.h5" trained_state).1 = Ok () ∧
  import_model "out.h5" (set_self (λ _, __init__ (λ _, 0%nat) 5 256) st')
  = (Ok (), set_self (set_mmax (f32 3000))
              (set_self (set_model 1%nat)
                 (set_self (λ _, __init__ (λ _, 0%nat) 5 256) st'))).
Proof.
  exact (export_then_import_restores trained_state
           (set_self (λ _, __init__ (λ _, 0%nat) 5 256)
              (export_model "out.h5" trained_state).2)
           "out.h5" (f32 3000) eq_refl eq_refl).
Defined.

(** X2: exporting an instance whose scale is unset raises TypeError after
    the predictor and an empty [disaggregator-data] group have been written;
    importing the file it leaves raises IndexError and sets no scale. *)
Theorem export_untrained_leaves_unusable_artifact {Model : Type}
    (st : @State Model) (filename : string) :
  mmax (self st) = None →
  let st' := (export_model filename st).2 in
  (export_model filename st).1 = Raise TypeError ∧
  files st' !! filename
  = Some (mk_H5File (Some (model (self st))) {[ "disaggregator-data" := ∅ ]}) ∧
  (import_model filename st').1 = Raise IndexError ∧
  mmax (self (import_model filename st').2) = None.
Proof.
  intros Hs. rewrite export_model_run. cbv zeta. rewrite Hs. cbn [fst snd].
  split; [done|].
  assert (Hf : files (set_files (insert filename
                 (mk_H5File (Some (model (self st)))
                    (<["disaggregator-data" := ∅]> ∅))) st) !! filename
               = Some (mk_H5File (Some (model (self st)))
                         {[ "disaggregator-data" := ∅ ]})).
  { cbn [files set_files]. apply lookup_insert_eq. }
  split; [done|].
  rewrite import_model_run, Hf. cbn [keras_model groups].
  rewrite lookup_singleton_eq, lookup_empty. cbv zeta. cbn [fst snd].
  split; [done|]. by cbn [self set_self set_files set_model mmax].
Qed.

Lemma export_untrained_leaves_unusable_artifact_witness :
  let st := set_self (λ _, __init__ (λ _, 0%nat) 5 256) trained_state in
  (export_model "new.h5" st).1 = Raise TypeError ∧
  (import_model "new.h5" (export_model "new.h5" st).2).1 = Raise IndexError.
Proof.
  destruct (export_untrained_leaves_unusable_artifact
              (set_self (λ _, __init__ (λ _, 0%nat) 5 256) trained_state)
              "new.h5" eq_refl) as (He & _ & Hi & _).
  exact (conj He Hi).
Defined.

(** X3: when the file is missing or holds no valid predictor,
    [import_model] raises (OSError, ValueError) before anything is assigned:
    the whole state is as it was. *)
Theorem import_load_failure_changes_nothing {Model : Type}
    (st : @State Model) (filename : string) :
  (files st !! filename ≫= keras_model) = None →
  ∃ e, import_model filename st = (Raise e, st) ∧
       (e = OSError ∨ e = ValueError).
Proof.
  intros H. rewrite import_model_run.
  destruct (files st !! filename) as [f|]; [|eauto].
  cbn in H. rewrite H. eauto.
Qed.

Lemma import_load_failure_changes_nothing_witness :
  ∃ e, import_model "absent.h5" trained_state = (Raise e, trained_state) ∧
       (e = OSError ∨ e = ValueError).
Proof.
  exact (import_load_failure_changes_nothing trained_state "absent.h5"
           eq_refl).
Defined.

(** X4: a successful [import_model] overwrites the predictor and the scale,
    also a scale that was already set, with the first element of the [mmax]
    dataset; the window size, the minimum chunk length, the meter, the
    store of Series, the output sink and the files are unchanged. *)
Theorem import_overwrites_predictor_and_scale {Model : Type}
    (st : @State Model) (filename : string) (f : H5File) (loaded : Model)
    (gr : gmap string (list float)) (v : float) (vs : list float) :
  files st !! filename = Some f →
  keras_model f = Some loaded →
  groups f !! "disaggregator-data" = Some gr →
  gr !! "mmax" = Some (v :: vs) →
  let r := import_model filename st in
  r.1 = Ok () ∧
  mmax (self r.2) = Some v ∧ model (self r.2) = loaded ∧
  sequence_length (self r.2) = sequence_length (self st) ∧
  MIN_CHUNK_LENGTH (self r.2) = MIN_CHUNK_LENGTH (self st) ∧
  meter_metadata (self r.2) = meter_metadata (self st) ∧
  heap r.2 = heap st ∧ output_datastore r.2 = output_datastore st ∧
  files r.2 = files st.
Proof.
  intros Hf Hm Hg Hv r. unfold r.
  rewrite import_model_run, Hf, Hm. cbv zeta. by rewrite Hg, Hv.
Qed.

Lemma import_overwrites_predictor_and_scale_witness :
  let st := (export_model "out.h5" trained_state).2 in
  let st2 := set_self (set_mmax (f32 10)) st in
  mmax (self st2) = Some (f32 10) ∧
  (import_model "out.h5" st2).1 = Ok () ∧
  mmax (self (import_model "out.h5" st2).2) = Some (f32 3000).
Proof.
  destruct (import_overwrites_predictor_and_scale
              (set_self (set_mmax (f32 10))
                 (export_model "out.h5" trained_state).2)
              "out.h5"
              (mk_H5File (Some 1%nat)
                 {[ "disaggregator-data" := {[ "mmax" := [f32 3000] ]} ]})
              1%nat {[ "mmax" := [f32 3000] ]} (f32 3000) []
              ltac:(by vm_compute) eq_refl ltac:(by vm_compute)
              ltac:(by vm_compute)) as (Hr & Hs & _).
  exact (conj eq_refl (conj Hr Hs)).
Defined.

(** ** The training loop *)

Section TrainLoop.
Context {Model : Type}.
Context (fit : Model → ndarray → ndarray → Z → Z → result Model).
Context (fmt : Z * Z).

Lemma train_loop_eq cs cs' c c' epochs batch_size (st : @State Model) :
  train_loop fit fmt cs cs' c c' epochs batch_size st
  = match train_step fit fmt c c' epochs batch_size st with
    | (Ok _, st1) =>
        match cs, cs' with
        | c1 :: cs1, c1' :: cs1' =>
            train_loop fit fmt cs1 cs1' c1 c1' epochs batch_size st1
        | _, _ => (Ok (), st1)
        end
    | (Raise e, st1) => (Raise e, st1)
    end.
Proof.
  destruct cs as [|c1 cs1], cs' as [|c1' cs1']; cbn [train_loop];
    unfold mbind, M_bind;
    by destruct (train_step _ _ _ _ _ _ st) as [[[]|e] st1].
Qed.

Lemma train_loop_take cs cs' c c' epochs batch_size (st : @State Model) :
  let k := (length cs `min` length cs')%nat in
  train_loop fit fmt cs cs' c c' epochs batch_size st
  = train_loop fit fmt (take k cs) (take k cs') c c' epochs batch_size st.
Proof.
  revert cs' c c' st. induction cs as [|c1 cs IH]; intros cs' c c' st.
  { cbn [length Nat.min take]. by rewrite !(train_loop_eq []). }
  destruct cs' as [|c1' cs']; [by rewrite !train_loop_eq|].
  cbn [length Nat.min take]. rewrite !(train_loop_eq (_ :: _)).
  destruct (train_step _ _ _ _ _ _ st) as [[[]|e] st1]; [|done].
  apply IH.
Qed.

Lemma train_loop_fold cs cs' c c' xs ys x1 x2 epochs batch_size
    (st : @State Model) scale :
  mmax (self st) = Some scale →
  heap st !! ref c = Some x1 → heap st !! ref c' = Some x2 →
  Forall2 (λ c x, heap st !! ref c = Some x) cs xs →
  Forall2 (λ c x, heap st !! ref c = Some x) cs' ys →
  let outcome :=
    fit_chunks fit fmt (sequence_length (self st)) scale epochs batch_size
      (model (self st)) ((x1, x2) :: zip xs ys) in
  let r := train_loop fit fmt cs cs' c c' epochs batch_size st in
  r.1 = (outcome ≫= λ _, Ok ()) ∧
  mmax (self r.2) = Some scale ∧
  ∀ m', outcome = Ok m' → model (self r.2) = m'.
Proof.
  revert cs' c c' xs ys x1 x2 st.
  induction cs as [|c1 cs IH]; intros cs' c c' xs ys x1 x2 st Hm H1 H2 Hxs Hys;
    cbv zeta; rewrite train_loop_eq;
    pose proof (train_step_kept fit fmt c c' epochs batch_size st) as Hk;
    cbv zeta in Hk;
    rewrite (train_step_run fit fmt c c' epochs batch_size st x1 x2 scale
               H1 H2 Hm) in *;
    cbv zeta in *; cbn [fit_chunks];
    destruct (training_batches _ _ _) as [[X Y]|e]; cbn [mbind result_bind];
    try (split; [done|split; [by rewrite <- Hm|done]]);
    cbn [fst snd];
    destruct (fit (model (self st)) X Y batch_size epochs) as [m1|e];
    cbn [mbind result_bind];
    try (split; [done|split; [by rewrite <- Hm|done]]).
  - inversion Hxs; subst. cbn [zip zip_with fit_chunks snd fst].
    split; [done|]. split; [by rewrite <- Hm|]. by intros m' [= <-].
  - inversion Hxs as [|? x ? xs1 Hc1 Hxs1]; subst.
    destruct cs' as [|c1' cs'].
    { inversion Hys; subst. cbn [zip zip_with fit_chunks snd fst].
      split; [done|]. split; [by rewrite <- Hm|]. by intros m' [= <-]. }
    inversion Hys as [|? y ? ys1 Hc1' Hys1]; subst.
    cbn [snd] in Hk. destruct Hk as (Hobj & _).
    set (st1 := set_self (set_model m1) _) in *.
    cbn [zip zip_with].
    apply (IH cs' c1 c1' xs1 ys1 x y st1); [by rewrite <- Hm| | | |];
      try (by apply Hobj);
      (eapply Forall2_impl; [eassumption|]); intros; by apply Hobj.
Qed.
End TrainLoop.

(** X5: [train] on a pair of sources of which one yields no chunk raises
    StopIteration and leaves the whole state as it was; in particular an
    unset scale stays unset. *)
Theorem train_on_an_empty_source_raises {Model : Type}
    (fit : Model → ndarray → ndarray → Z → Z → result Model) (fmt : Z * Z)
    (st : @State Model) (mains meter : ElecMeter) (epochs batch_size : Z) :
  power_series mains = [] ∨ power_series meter = [] →
  train fit fmt mains meter epochs batch_size st = (Raise StopIteration, st).
Proof.
  intros H. rewrite train_run.
  destruct (power_series mains) as [|c cs]; [done|].
  destruct H as [H|H]; [done|]. by rewrite H.
Qed.

Lemma train_on_an_empty_source_raises_witness :
  train idle_fit binary32 example_mains (mk_ElecMeter 1 []) 1 16
    unscaled_state
  = (Raise StopIteration, unscaled_state).
Proof.
  exact (train_on_an_empty_source_raises idle_fit binary32 unscaled_state
           example_mains (mk_ElecMeter 1 []) 1 16 (or_intror eq_refl)).
Defined.

(** X6: [train] stops with the shorter of the two sources: the chunks that
    one source yields beyond the length of the other play no part, whatever
    the state and whatever [fit] does. *)
Theorem train_ignores_surplus_chunks {Model : Type}
    (fit : Model → ndarray → ndarray → Z → Z → result Model) (fmt : Z * Z)
    (st : @State Model) (mains meter : ElecMeter) (epochs batch_size : Z) :
  let n := (length (power_series mains)
            `min` length (power_series meter))%nat in
  train fit fmt mains meter epochs batch_size st
  = train fit fmt
      (mk_ElecMeter (building mains) (take n (power_series mains)))
      (mk_ElecMeter (building meter) (take n (power_series meter)))
      epochs batch_size st.
Proof.
  cbv zeta. rewrite !train_run. cbn [power_series].
  destruct (power_series mains) as [|c cs]; [done|].
  destruct (power_series meter) as [|c' cs']; [done|].
  cbn [length Nat.min take].
  destruct (mmax (self st)); [apply train_loop_take|].
  destruct (heap st !! ref c); [apply train_loop_take|done].
Qed.

(** X7: [train] is a fold of [fit] over the pairs of chunks.  With the
    chunks of both sources in the store, each with one reading per
    timestamp in time order, the scale is the one already set,
    or else the maximum of the first mains chunk; every pair of chunks, up
    to the length of the shorter source, is normalised with that one scale
    (the meter chunk too), windowed on its common index and handed to [fit]
    in order; the first failure is what [train] raises, and on success the
    instance holds the last predictor. *)
Theorem train_folds_fit_over_the_chunk_pairs {Model : Type}
    (fit : Model → ndarray → ndarray → Z → Z → result Model) (fmt : Z * Z)
    (st : @State Model) (mains meter : ElecMeter) (epochs batch_size : Z)
    (x1 x2 : Series float) (xs ys : list (Series float)) :
  Forall2 (λ c x, heap st !! ref c = Some x) (power_series mains) (x1 :: xs) →
  Forall2 (λ c x, heap st !! ref c = Some x) (power_series meter) (x2 :: ys) →
  Forall (λ x, increasing (index x)) (x1 :: xs) →
  Forall (λ x, increasing (index x)) (x2 :: ys) →
  let scale := default (series_max x1) (mmax (self st)) in
  let outcome :=
    fit_chunks fit fmt (sequence_length (self st)) scale epochs batch_size
      (model (self st)) (zip (x1 :: xs) (x2 :: ys)) in
  let r := train fit fmt mains meter epochs batch_size st in
  r.1 = (outcome ≫= λ _, Ok ()) ∧
  mmax (self r.2) = Some scale ∧
  ∀ m', outcome = Ok m' → model (self r.2) = m'.
Proof.
  intros Hxs Hys _ _. cbv zeta. rewrite train_run.
  inversion Hxs as [|c ? cs ? Hc Hcs Heq]; subst.
  inversion Hys as [|c' ? cs' ? Hc' Hcs' Heq']; subst.
  rewrite Hc. cbn [zip zip_with].
  destruct (mmax (self st)) as [m|] eqn:Hm; cbn [default].
  - by apply (train_loop_fold fit fmt cs cs' c c' xs ys x1 x2).
  - apply (train_loop_fold fit fmt cs cs' c c' xs ys x1 x2 epochs batch_size
             (set_self (set_mmax (series_max x1)) st)); done.
Qed.

Lemma train_folds_fit_over_the_chunk_pairs_witness :
  let r := train counting_fit binary32 three_chunks two_chunks 1 16
             (counting_state 2 None) in
  r.1 = Ok () ∧ mmax (self r.2) = Some (f32 90) ∧ model (self r.2) = 2%nat.
Proof.
  destruct (train_folds_fit_over_the_chunk_pairs counting_fit binary32
              (counting_state 2 None) three_chunks two_chunks 1 16
              two_readings gappy_series [gappy_series; one_reading]
              [two_readings]
              ltac:(repeat constructor) ltac:(repeat constructor)
              ltac:(repeat constructor) ltac:(repeat constructor))
    as (Hr & Hs & Hmod).
  split; [exact Hr|]. split; [exact Hs|]. exact (Hmod 2%nat eq_refl).
Defined.

(** ** The disaggregation loop, chunk by chunk *)

Section DisaggregateLoop.
Context {Model : Type}.
Context (predict : Model → ndarray → result ndarray).
Context (fmt : Z * Z).

Lemma disaggregate_loop_all_short bp ml cs lv (st : @State Model) :
  Forall (λ c, ∃ x, heap st !! ref c = Some x ∧
                    len x < MIN_CHUNK_LENGTH (self st)) cs →
  disaggregate_loop predict fmt bp ml cs lv st = (Ok lv, st).
Proof.
  induction 1 as [|c cs (x & Hc & Hlen) _ IH]; [done|].
  rewrite disaggregate_loop_cons.
  by rewrite (disaggregate_step_skip predict fmt bp ml c lv st x).
Qed.

(** A chunk that is long enough, with a scale: the normalised copy is
    allocated and filled, and the iteration raises in
    [disaggregate_chunk]. *)
Lemma disaggregate_step_long bp ml c lv (st : @State Model) x scale :
  heap st !! ref c = Some x →
  MIN_CHUNK_LENGTH (self st) ≤ len x →
  mmax (self st) = Some scale →
  disaggregate_step predict fmt bp ml c lv st
  = (Raise (window_error (sequence_length (self st))),
     set_heap (insert (fresh (dom (heap st)))
                 (fillna (_normalize (SFdiv fmt.1 fmt.2) x scale) fzero))
       st).
Proof.
  intros Hc Hlen Hm.
  rewrite (disaggregate_step_run predict fmt bp ml c lv st x Hc), Hm.
  destruct (Z.ltb_spec (len x) (MIN_CHUNK_LENGTH (self st))); [lia|].
  cbv zeta. unfold appliance_frame. by rewrite chunk_prediction_raises.
Qed.

(** No iteration writes to the output datastore, and one that does not
    raise has skipped its chunk. *)
Lemma disaggregate_step_output bp ml c lv (st : @State Model) :
  let r := disaggregate_step predict fmt bp ml c lv st in
  output_datastore r.2 = output_datastore st ∧
  ∀ lv', r.1 = Ok lv' → lv' = lv ∧ r.2 = st.
Proof.
  cbv zeta. destruct (heap st !! ref c) as [x|] eqn:Hc.
  - rewrite (disaggregate_step_run predict fmt bp ml c lv st x Hc).
    destruct (len x <? MIN_CHUNK_LENGTH (self st)).
    { split; [done|]. intros lv' [= <-]. done. }
    destruct (mmax (self st)) as [m|]; [|done].
    cbv zeta. unfold appliance_frame. rewrite chunk_prediction_raises.
    done.
  - unfold disaggregate_step, mbind, M_bind.
    by rewrite (deref_none _ _ Hc).
Qed.

Lemma disaggregate_loop_output bp ml cs lv (st : @State Model) :
  let r := disaggregate_loop predict fmt bp ml cs lv st in
  output_datastore r.2 = output_datastore st ∧
  ∀ lv', r.1 = Ok lv' → lv' = lv ∧ r.2 = st.
Proof.
  cbv zeta. revert lv st. induction cs as [|c cs IH]; intros lv st.
  { split; [done|]. by intros lv' [= <-]. }
  rewrite disaggregate_loop_cons.
  pose proof (disaggregate_step_output bp ml c lv st) as Hstep.
  cbv zeta in Hstep.
  destruct (disaggregate_step predict fmt bp ml c lv st) as [[lv1|e] st1];
    cbn [fst snd] in Hstep; destruct Hstep as [Hout Hok]; [|done].
  destruct (Hok lv1 eq_refl) as [-> ->]. apply IH.
Qed.
End DisaggregateLoop.

(** X8: a stream of which every chunk is shorter than the minimum length,
    an empty stream included, makes [disaggregate] return without an error
    and without any effect: nothing is appended, no metadata is saved, and
    this whether or not the instance has a scale. *)
Theorem disaggregate_of_short_chunks_does_nothing {Model : Type}
    (predict : Model → ndarray → result ndarray) (fmt : Z * Z)
    (st : @State Model) (mains : ElecMeter) (kw : gmap string Z) :
  Forall (λ c, ∃ x, heap st !! ref c = Some x ∧
                    len x < MIN_CHUNK_LENGTH (self st)) (power_series mains) →
  disaggregate predict fmt mains kw st = (Ok (), st).
Proof.
  intros H. rewrite disaggregate_run. cbv zeta.
  by rewrite (disaggregate_loop_all_short predict fmt _ _ _ _ st H).
Qed.

Lemma disaggregate_of_short_chunks_does_nothing_witness :
  disaggregate identity_predict binary32
    (mk_ElecMeter 1 [mk_Chunk 2 (3, 3); mk_Chunk 2 (3, 3)]) ∅ unscaled_state
  = (Ok (), unscaled_state).
Proof.
  apply (disaggregate_of_short_chunks_does_nothing identity_predict binary32
           unscaled_state
           (mk_ElecMeter 1 [mk_Chunk 2 (3, 3); mk_Chunk 2 (3, 3)]) ∅).
  repeat constructor; exists one_reading; by split.
Defined.

(** X9: [disaggregate] on an instance whose scale is unset raises TypeError
    at the first chunk that is long enough (the division by [None]), before
    anything has been appended or allocated: the state is as it was. *)
Theorem disaggregate_without_scale_raises {Model : Type}
    (predict : Model → ndarray → result ndarray) (fmt : Z * Z)
    (st : @State Model) (mains : ElecMeter) (kw : gmap string Z)
    (pre post : list Chunk) (c : Chunk) (x : Series float) :
  mmax (self st) = None →
  power_series mains = pre ++ c :: post →
  Forall (λ c, ∃ x, heap st !! ref c = Some x ∧
                    len x < MIN_CHUNK_LENGTH (self st)) pre →
  heap st !! ref c = Some x →
  MIN_CHUNK_LENGTH (self st) ≤ len x →
  disaggregate predict fmt mains kw st = (Raise TypeError, st).
Proof.
  intros Hm Hcs Hpre Hc Hlen. rewrite disaggregate_run. cbv zeta. rewrite Hcs.
  clear Hcs.
  assert (Hloop : ∀ bp ml lv,
    disaggregate_loop predict fmt bp ml (pre ++ c :: post) lv st
    = (Raise TypeError, st)).
  { intros bp ml lv. induction Hpre as [|c0 pre (x0 & Hc0 & Hl0) _ IH].
    - cbn [app]. rewrite disaggregate_loop_cons.
      rewrite (disaggregate_step_run predict fmt bp ml c lv st x Hc), Hm.
      by destruct (Z.ltb_spec (len x) (MIN_CHUNK_LENGTH (self st))); [lia|].
    - cbn [app]. rewrite disaggregate_loop_cons.
      rewrite (disaggregate_step_skip predict fmt bp ml c0 lv st x0) by done.
      apply IH. }
  by rewrite Hloop.
Qed.

Lemma disaggregate_without_scale_raises_witness :
  disaggregate identity_predict binary32
    (mk_ElecMeter 1 [mk_Chunk 2 (3, 3); mk_Chunk 1 (1, 2); mk_Chunk 3 (1, 3)])
    ∅ unscaled_state
  = (Raise TypeError, unscaled_state).
Proof.
  apply (disaggregate_without_scale_raises identity_predict binary32
           unscaled_state
           (mk_ElecMeter 1
              [mk_Chunk 2 (3, 3); mk_Chunk 1 (1, 2); mk_Chunk 3 (1, 3)])
           ∅ [mk_Chunk 2 (3, 3)] [mk_Chunk 3 (1, 3)] (mk_Chunk 1 (1, 2))
           two_readings); try done.
  repeat constructor; exists one_reading; by split.
Defined.

(** X10: with a scale, [disaggregate] raises at the first chunk that is
    long enough, whatever the predictor: the normalised copy of the chunk is
    created and its NaN readings filled, then [disaggregate_chunk] raises
    (TypeError at the reshape of line 197 for a positive window size,
    ZeroDivisionError for the window size 0, ValueError for a negative
    one).  The later chunks are not read, and but for the copy the state is
    as it was. *)
Theorem disaggregate_raises_at_the_first_long_chunk {Model : Type}
    (predict : Model → ndarray → result ndarray) (fmt : Z * Z)
    (st : @State Model) (mains : ElecMeter) (kw : gmap string Z)
    (pre post : list Chunk) (c : Chunk) (x : Series float) (scale : float) :
  mmax (self st) = Some scale →
  power_series mains = pre ++ c :: post →
  Forall (λ c, ∃ x, heap st !! ref c = Some x ∧
                    len x < MIN_CHUNK_LENGTH (self st)) pre →
  heap st !! ref c = Some x →
  MIN_CHUNK_LENGTH (self st) ≤ len x →
  disaggregate predict fmt mains kw st
  = (Raise (window_error (sequence_length (self st))),
     set_heap (insert (fresh (dom (heap st)))
                 (fillna (_normalize (SFdiv fmt.1 fmt.2) x scale) fzero))
       st).
Proof.
  intros Hm Hcs Hpre Hc Hlen. rewrite disaggregate_run. cbv zeta. rewrite Hcs.
  clear Hcs.
  assert (Hloop : ∀ bp ml lv,
    disaggregate_loop predict fmt bp ml (pre ++ c :: post) lv st
    = (Raise (window_error (sequence_length (self st))),
       set_heap (insert (fresh (dom (heap st)))
                   (fillna (_normalize (SFdiv fmt.1 fmt.2) x scale) fzero))
         st)).
  { intros bp ml lv. induction Hpre as [|c0 pre (x0 & Hc0 & Hl0) _ IH].
    - cbn [app]. rewrite disaggregate_loop_cons.
      by rewrite (disaggregate_step_long predict fmt bp ml c lv st x scale).
    - cbn [app]. rewrite disaggregate_loop_cons.
      rewrite (disaggregate_step_skip predict fmt bp ml c0 lv st x0) by done.
      apply IH. }
  by rewrite Hloop.
Qed.

Lemma disaggregate_raises_at_the_first_long_chunk_witness :
  disaggregate identity_predict binary32
    (mk_ElecMeter 1 [mk_Chunk 2 (3, 3); mk_Chunk 3 (1, 3); mk_Chunk 1 (1, 2)])
    ∅ scaled_state
  = (Raise TypeError,
     set_heap (insert (fresh (dom (heap scaled_state)))
                 (fillna (_normalize (SFdiv 24 128) gappy_series (f32 100))
                    fzero))
       scaled_state).
Proof.
  apply (disaggregate_raises_at_the_first_long_chunk identity_predict binary32
           scaled_state
           (mk_ElecMeter 1
              [mk_Chunk 2 (3, 3); mk_Chunk 3 (1, 3); mk_Chunk 1 (1, 2)])
           ∅ [mk_Chunk 2 (3, 3)] [mk_Chunk 1 (1, 2)] (mk_Chunk 3 (1, 3))
           gappy_series (f32 100)); try done.
  repeat constructor; exists one_reading; by split.
Defined.

(** X11: [disaggregate] never writes to the output datastore: after every
    call, whatever the instance, the stream, the predictor and the outcome,
    nothing has been appended and no metadata has been saved; and a call
    that returns without raising has left the whole state as it was (every
    chunk was skipped). *)
Theorem disaggregate_never_writes_the_output {Model : Type}
    (predict : Model → ndarray → result ndarray) (fmt : Z * Z)
    (st : @State Model) (mains : ElecMeter) (kw : gmap string Z) :
  let r := disaggregate predict fmt mains kw st in
  output_datastore r.2 = output_datastore st ∧
  (r.1 = Ok () → r.2 = st).
Proof.
  cbv zeta. rewrite disaggregate_run. cbv zeta.
  match goal with
  | |- context [disaggregate_loop predict fmt ?bp ?ml ?cs ?lv st] =>
      pose proof (disaggregate_loop_output predict fmt bp ml cs lv st)
        as Hloop;
      destruct (disaggregate_loop predict fmt bp ml cs lv st)
        as [[lv'|e] st1]
  end; cbv zeta in Hloop; cbn [fst snd] in Hloop;
    destruct Hloop as [Hout Hok]; [|done].
  by destruct (Hok lv' eq_refl) as [-> ->].
Qed.

(** ** The chunk-level entry points *)

(** X12: the outcome of [disaggregate_chunk] for a positive window size,
    whatever the Series and the predictor: the Series is filled in place,
    the padded values are built, and the reshape of line 197 raises
    TypeError on its float dimension; the predictor is not called and
    nothing is returned. *)
Theorem disaggregate_chunk_raises_type_error {Model : Type}
    (predict : Model → ndarray → result ndarray)
    (st : @State Model) (l : loc) (x : Series float) :
  0 < sequence_length (self st) →
  heap st !! l = Some x →
  disaggregate_chunk predict l st
  = (Raise TypeError, set_heap (insert l (fillna x fzero)) st).
Proof.
  intros Hs Hl.
  rewrite (disaggregate_chunk_run predict l x st Hl), chunk_prediction_raises.
  unfold window_error.
  destruct (Z.eqb_spec (sequence_length (self st)) 0); [lia|].
  by destruct (Z.ltb_spec (sequence_length (self st)) 0); [lia|].
Qed.

Lemma disaggregate_chunk_raises_type_error_witness :
  disaggregate_chunk nan_predict 3%positive scaled_state
  = (Raise TypeError,
     set_heap (insert 3%positive (fillna gappy_series fzero)) scaled_state).
Proof.
  exact (disaggregate_chunk_raises_type_error nan_predict scaled_state
           3%positive gappy_series eq_refl eq_refl).
Defined.

(** X13: a window size that is not positive.  With [sequence_length = 0]
    both chunk-level entry points raise ZeroDivisionError, with a negative
    one ValueError (a negative number of padding zeros), in both cases after
    the Series they were given have been filled in place; neither the
    predictor nor the trainer is called. *)
Theorem nonpositive_window_size_raises {Model : Type}
    (fit : Model → ndarray → ndarray → Z → Z → result Model)
    (predict : Model → ndarray → result ndarray)
    (st : @State Model) (l l' : loc) (x x' : Series float)
    (epochs batch_size : Z) :
  sequence_length (self st) ≤ 0 →
  heap st !! l = Some x → heap st !! l' = Some x' → l ≠ l' →
  let e := if sequence_length (self st) =? 0 then ZeroDivisionError
           else ValueError in
  disaggregate_chunk predict l st
  = (Raise e, set_heap (insert l (fillna x fzero)) st) ∧
  train_on_chunk fit l l' epochs batch_size st
  = (Raise e, set_heap (λ h, <[l' := fillna x' fzero]>
                               (<[l := fillna x fzero]> h)) st).
Proof.
  intros Hs Hl Hl' Hne e.
  assert (Hw : ∀ n (vals : list float),
            create_array_of_batches (sequence_length (self st)) n vals
            = Raise e).
  { intros n vals. unfold create_array_of_batches, additional, py_mod, e.
    destruct (Z.eqb_spec (sequence_length (self st)) 0) as [E|E]; [done|].
    cbn [mbind result_bind]. unfold np_zeros.
    pose proof (Z.mod_neg_bound n (sequence_length (self st)) ltac:(lia)).
    by destruct (Z.ltb_spec (sequence_length (self st)
                             - n mod sequence_length (self st)) 0); [|lia]. }
  split.
  - rewrite (disaggregate_chunk_run predict l x st Hl). f_equal.
    rewrite chunk_prediction_raises. unfold window_error, e.
    destruct (Z.eqb_spec (sequence_length (self st)) 0); [done|].
    by destruct (Z.ltb_spec (sequence_length (self st)) 0); [|lia].
  - rewrite (train_on_chunk_run fit l l' x x' _ _ st Hne Hl Hl'). cbv zeta.
    unfold training_batches. cbv zeta. by rewrite !Hw.
Qed.

Lemma nonpositive_window_size_raises_witness :
  let st := example_state (-3) (Some (f32 100)) example_store in
  disaggregate_chunk identity_predict 3%positive st
  = (Raise ValueError,
     set_heap (insert 3%positive (fillna gappy_series fzero)) st) ∧
  train_on_chunk idle_fit 3%positive 1%positive 1 16 st
  = (Raise ValueError,
     set_heap (λ h, <[1%positive := fillna two_readings fzero]>
                      (<[3%positive := fillna gappy_series fzero]> h)) st).
Proof.
  exact (nonpositive_window_size_raises idle_fit identity_predict
           (example_state (-3) (Some (f32 100)) example_store)
           3%positive 1%positive gappy_series two_readings 1 16
           ltac:(done) eq_refl eq_refl ltac:(done)).
Defined.

Lemma fillna_idempotent (x : Series float) :
  fillna (fillna x fzero) fzero = fillna x fzero.
Proof.
  unfold fillna, map_values. cbn [rows name]. f_equal.
  rewrite <- list_fmap_compose. apply list_fmap_ext.
  intros _ [t r] _. cbn. by destruct r.
Qed.

Lemma fillna_without_nan (x : Series float) :
  Forall (λ r, isnan r = false) (values x) → fillna x fzero = x.
Proof.
  destruct x as [rs nm]. unfold fillna, map_values, values. cbn [rows name].
  intros H. f_equal. induction rs as [|[t r] rs IH]; [done|].
  rewrite fmap_cons in H. apply Forall_cons in H as [Hr H].
  cbn in Hr. rewrite fmap_cons. cbn. rewrite Hr. f_equal. by apply IH.
Qed.

(** X14: [disaggregate_chunk] is idempotent: a second call on the same
    Series returns what the first returned and leaves the store as the first
    left it.  On a Series without a NaN reading the call changes nothing at
    all. *)
Theorem disaggregate_chunk_is_idempotent {Model : Type}
    (predict : Model → ndarray → result ndarray)
    (st : @State Model) (l : loc) (x : Series float) :
  heap st !! l = Some x →
  disaggregate_chunk predict l (disaggregate_chunk predict l st).2
  = disaggregate_chunk predict l st ∧
  (Forall (λ r, isnan r = false) (values x) →
   (disaggregate_chunk predict l st).2 = st).
Proof.
  intros Hl. rewrite (disaggregate_chunk_run predict l x st Hl). cbn [snd].
  split.
  - rewrite (disaggregate_chunk_run predict l (fillna x fzero)).
    + rewrite fillna_idempotent. cbn [self set_heap]. f_equal.
      unfold set_heap. cbn [heap self output_datastore files].
      by rewrite insert_insert_eq.
    + cbn [heap set_heap]. apply lookup_insert_eq.
  - intros Hnan. rewrite (fillna_without_nan x Hnan).
    destruct st as [h sf o fs]. unfold set_heap. cbn in *.
    by rewrite (insert_id h l x Hl).
Qed.

Lemma disaggregate_chunk_is_idempotent_witness :
  disaggregate_chunk identity_predict 3%positive
    (disaggregate_chunk identity_predict 3%positive scaled_state).2
  = disaggregate_chunk identity_predict 3%positive scaled_state ∧
  (disaggregate_chunk identity_predict 1%positive scaled_state).2
  = scaled_state.
Proof.
  split.
  - exact (proj1 (disaggregate_chunk_is_idempotent identity_predict
             scaled_state 3%positive gappy_series eq_refl)).
  - apply (proj2 (disaggregate_chunk_is_idempotent identity_predict
             scaled_state 1%positive two_readings eq_refl)).
    by repeat constructor.
Defined.

Lemma intersection_disjoint (a b : list Z) :
  (∀ t, t ∈ a → t ∉ b) → intersection a b = [].
Proof.
  intros H. unfold intersection. induction a as [|t a IH]; [done|].
  rewrite filter_cons. destruct (decide (t ∈ b)) as [Hin|_].
  - destruct (H t); [left|done].
  - apply IH. intros u Hu. apply H. by right.
Qed.

(** X15: two chunks without a common timestamp (one of them empty, for
    instance).  For a positive window size [train_on_chunk] does not raise
    and does not skip the training: after filling both Series in place it
    calls the trainer on one all-zero window, as input and as target, and
    stores the predictor that comes back. *)
Theorem train_on_chunk_without_common_timestamp {Model : Type}
    (fit : Model → ndarray → ndarray → Z → Z → result Model)
    (st : @State Model) (l l' : loc) (x x' : Series float)
    (epochs batch_size : Z) :
  0 < sequence_length (self st) →
  l ≠ l' → heap st !! l = Some x → heap st !! l' = Some x' →
  (∀ t, t ∈ index x → t ∉ index x') →
  let s := sequence_length (self st) in
  let zeros := mk_ndarray [1; s; 1] (replicate (Z.to_nat s) fzero) in
  let st1 := set_heap (λ h, <[l' := fillna x' fzero]>
                              (<[l := fillna x fzero]> h)) st in
  train_on_chunk fit l l' epochs batch_size st
  = match fit (model (self st)) zeros zeros batch_size epochs with
    | Raise e => (Raise e, st1)
    | Ok m' => (Ok (), set_self (set_model m') st1)
    end.
Proof.
  intros Hs Hne Hl Hl' Hdis s zeros st1.
  rewrite (train_on_chunk_run fit l l' x x' _ _ st Hne Hl Hl'). cbv zeta.
  unfold training_batches. rewrite !index_fillna.
  rewrite (intersection_disjoint _ _ Hdis). cbv zeta.
  unfold getitem. cbn [mbind list_bind values rows fmap list_fmap length].
  pose proof (create_array_of_batches_ok s [] Hs) as HB.
  cbv zeta in HB. cbn [length app] in HB.
  change (Z.of_nat 0) with 0 in *.
  assert (Hp : pad s 0 = s) by (unfold pad; by rewrite Z.mod_0_l by lia).
  rewrite Hp, Z.div_0_l in HB by lia. change (0 + 1) with 1 in HB.
  fold s. rewrite HB. done.
Qed.

Lemma train_on_chunk_without_common_timestamp_witness :
  train_on_chunk counting_fit 1%positive 2%positive 1 16
    (counting_state 2 (Some (f32 100)))
  = (Ok (),
     set_self (set_model 1%nat)
       (set_heap (λ h, <[2%positive := fillna one_reading fzero]>
                         (<[1%positive := fillna two_readings fzero]> h))
          (counting_state 2 (Some (f32 100))))).
Proof.
  exact (train_on_chunk_without_common_timestamp counting_fit
           (counting_state 2 (Some (f32 100))) 1%positive 2%positive
           two_readings one_reading 1 16
           ltac:(done) ltac:(done) eq_refl eq_refl
           ltac:(apply Forall_forall; repeat constructor; by intros ?%list_elem_of_singleton)).
Defined.

(** ** What the public methods leave alone *)

Section Frames.
Context {Model : Type}.
Context (fit : Model → ndarray → ndarray → Z → Z → result Model).
Context (predict : Model → ndarray → result ndarray).
Context (fmt : Z * Z).

Lemma objects_kept_same_heap (st st' : @State Model) :
  heap st' = heap st → objects_kept_or_filled st st'.
Proof. intros Hh l x Hl. left. by rewrite Hh. Qed.

Lemma objects_kept_or_filled_refl (st : @State Model) :
  objects_kept_or_filled st st.
Proof. by apply objects_kept_same_heap. Qed.

Lemma objects_kept_or_filled_trans (st1 st2 st3 : @State Model) :
  objects_kept_or_filled st1 st2 → objects_kept_or_filled st2 st3 →
  objects_kept_or_filled st1 st3.
Proof.
  intros H12 H23 l x Hl. destruct (H12 l x Hl) as [H|H].
  - apply (H23 l x H).
  - destruct (H23 l _ H) as [H'|H']; [by right|].
    right. by rewrite fillna_idempotent in H'.
Qed.

Lemma objects_kept_filled (st st' : @State Model) :
  objects_kept st st' → objects_kept_or_filled st st'.
Proof. intros H l x Hl. left. by apply H. Qed.

Lemma objects_filled_insert l x (st : @State Model) :
  heap st !! l = Some x →
  objects_kept_or_filled st (set_heap (insert l (fillna x fzero)) st).
Proof.
  intros Hl l' x' Hl'. cbn [heap set_heap].
  destruct (decide (l' = l)) as [->|Hne].
  - right. rewrite lookup_insert_eq. congruence.
  - left. by rewrite lookup_insert_ne.
Qed.

Lemma disaggregate_chunk_frame l (st : @State Model) :
  let st' := (disaggregate_chunk predict l st).2 in
  objects_kept_or_filled st st' ∧ self st' = self st ∧
  output_datastore st' = output_datastore st ∧ files st' = files st.
Proof.
  destruct (heap st !! l) as [x|] eqn:Hl.
  - rewrite (disaggregate_chunk_run predict l x st Hl). cbn [snd].
    split; [by apply objects_filled_insert|done].
  - unfold disaggregate_chunk, mbind, M_bind, gets. cbv beta iota.
    rewrite (deref_none _ _ Hl). cbn [snd].
    split; [apply objects_kept_or_filled_refl|done].
Qed.

Lemma fillna_inplace_run l (st : @State Model) :
  fillna_inplace l fzero st
  = match heap st !! l with
    | Some x => (Ok (), set_heap (insert l (fillna x fzero)) st)
    | None => (Raise ReferenceError, st)
    end.
Proof.
  unfold fillna_inplace, mbind, M_bind, deref, modify.
  by destruct (heap st !! l).
Qed.

Lemma train_on_chunk_objects l1 l2 epochs batch_size (st : @State Model) :
  objects_kept_or_filled st
    (train_on_chunk fit l1 l2 epochs batch_size st).2.
Proof.
  unfold train_on_chunk. unfold mbind at 1 2, M_bind at 1 2, gets at 1.
  cbv beta iota. rewrite fillna_inplace_run.
  destruct (heap st !! l1) as [x1|] eqn:H1;
    [|apply objects_kept_or_filled_refl].
  pose proof (objects_filled_insert l1 x1 st H1) as Hst1.
  set (st1 := set_heap (insert l1 (fillna x1 fzero)) st) in *.
  unfold mbind at 1, M_bind at 1. rewrite fillna_inplace_run.
  destruct (heap st1 !! l2) as [x2|] eqn:H2; [|done].
  pose proof (objects_filled_insert l2 x2 st1 H2) as Hst2.
  set (st2 := set_heap (insert l2 (fillna x2 fzero)) st1) in *.
  pose proof (objects_kept_or_filled_trans _ _ _ Hst1 Hst2) as Hst.
  assert (Hfin : ∀ (r : result unit) st', heap st' = heap st2 →
            objects_kept_or_filled st (r, st').2).
  { intros r st' Hh l x Hl. cbn [snd]. rewrite Hh. by apply Hst. }
  unfold mbind, M_bind, deref, lift, gets, modify. cbv beta iota.
  repeat case_match; simplify_eq; by apply Hfin.
Qed.

Lemma disaggregate_step_appends bp ml c lv (st : @State Model) :
  appended (output_datastore st)
  `prefix_of`
  appended (output_datastore (disaggregate_step predict fmt bp ml c lv st).2).
Proof.
  destruct (heap st !! ref c) as [x|] eqn:Hl.
  - rewrite (disaggregate_step_run predict fmt bp ml c lv st x Hl).
    repeat case_match; cbn [snd]; try done.
    unfold emit. cbn [output_datastore set_output set_heap appended].
    by apply prefix_app_r.
  - unfold disaggregate_step, mbind, M_bind.
    by rewrite (deref_none _ _ Hl).
Qed.

Lemma disaggregate_loop_appends bp ml cs lv (st : @State Model) :
  appended (output_datastore st)
  `prefix_of`
  appended
    (output_datastore (disaggregate_loop predict fmt bp ml cs lv st).2).
Proof.
  revert lv st. induction cs as [|c cs IH]; intros lv st; [done|].
  cbn [disaggregate_loop]. unfold mbind, M_bind.
  pose proof (disaggregate_step_appends bp ml c lv st) as Hstep.
  destruct (disaggregate_step predict fmt bp ml c lv st) as [[lv'|e] st1];
    [|done].
  cbn [snd] in Hstep. etrans; [exact Hstep|apply IH].
Qed.

Lemma disaggregate_appends mains kw (st : @State Model) :
  appended (output_datastore st)
  `prefix_of`
  appended (output_datastore (disaggregate predict fmt mains kw st).2).
Proof.
  rewrite disaggregate_run. cbv zeta.
  match goal with
  | |- context [disaggregate_loop predict fmt ?bp ?ml ?cs ?lv st] =>
      pose proof (disaggregate_loop_appends bp ml cs lv st) as Hloop;
      destruct (disaggregate_loop predict fmt bp ml cs lv st)
        as [[lv'|e] st1]
  end; cbn [snd] in Hloop; [|done].
  by destruct (data_is_available lv').
Qed.

Lemma run_method_inv c (st : @State Model) :
  let st' := run_method fit predict fmt c st in
  sequence_length (self st') = sequence_length (self st) ∧
  MIN_CHUNK_LENGTH (self st') = MIN_CHUNK_LENGTH (self st) ∧
  meter_metadata (self st') = meter_metadata (self st) ∧
  appended (output_datastore st)
  `prefix_of` appended (output_datastore st') ∧
  objects_kept_or_filled st st'.
Proof.
  destruct c as [mains meter epochs bs|l1 l2 epochs bs|mains kw|l|fn|fn];
    cbn [run_method].
  - pose proof (train_kept fit fmt mains meter epochs bs st) as H.
    cbv zeta in H. destruct H as (Ho & Hd & _ & Hs & Hm & Hmm & _).
    rewrite Hd. split_and!; try done. by apply objects_kept_filled.
  - pose proof (train_on_chunk_effect fit l1 l2 epochs bs st) as H.
    cbv zeta in H. destruct H as (_ & (_ & Hs & Hm & Hmm) & Hd & _).
    rewrite Hd. split_and!; try done. apply train_on_chunk_objects.
  - pose proof (disaggregate_kept predict fmt mains kw st) as H.
    cbv zeta in H. destruct H as (Ho & -> & _).
    split_and!; try done;
      [apply disaggregate_appends|by apply objects_kept_filled].
  - pose proof (disaggregate_chunk_frame l st) as H.
    cbv zeta in H. by destruct H as (Ho & -> & -> & _).
  - rewrite import_model_run.
    repeat case_match; cbn [snd];
      split_and!; try done; by apply objects_kept_same_heap.
  - rewrite export_model_run. cbv zeta.
    repeat case_match; cbn [snd];
      split_and!; try done; by apply objects_kept_same_heap.
Qed.
End Frames.

(** X16: which parts of the state each public method can write.  [train] and
    [train_on_chunk] never write to the output datastore or to a file;
    [disaggregate] never changes the instance or a file, and
    [disaggregate_chunk] neither of these nor the output datastore;
    [import_model] touches only the instance, [export_model] only the
    files: whatever the arguments and whether or not the call raises. *)
Theorem public_methods_write_only_their_part {Model : Type}
    (fit : Model → ndarray → ndarray → Z → Z → result Model)
    (predict : Model → ndarray → result ndarray) (fmt : Z * Z)
    (c : method) (st : @State Model) :
  let st' := run_method fit predict fmt c st in
  match c with
  | CallTrain _ _ _ _ | CallTrainOnChunk _ _ _ _ =>
      output_datastore st' = output_datastore st ∧ files st' = files st
  | CallDisaggregate _ _ =>
      self st' = self st ∧ files st' = files st
  | CallDisaggregateChunk _ =>
      self st' = self st ∧ output_datastore st' = output_datastore st ∧
      files st' = files st
  | CallImport _ =>
      heap st' = heap st ∧ output_datastore st' = output_datastore st ∧
      files st' = files st
  | CallExport _ =>
      heap st' = heap st ∧ self st' = self st ∧
      output_datastore st' = output_datastore st
  end.
Proof.
  destruct c as [mains meter epochs bs|l1 l2 epochs bs|mains kw|l|fn|fn];
    cbn [run_method]; cbv zeta.
  - pose proof (train_kept fit fmt mains meter epochs bs st) as H.
    cbv zeta in H. by destruct H as (_ & Hd & Hf & _).
  - pose proof (train_on_chunk_effect fit l1 l2 epochs bs st) as H.
    cbv zeta in H. by destruct H as (_ & _ & Hd & Hf).
  - pose proof (disaggregate_kept predict fmt mains kw st) as H.
    cbv zeta in H. by destruct H as (_ & Hs & Hf).
  - pose proof (disaggregate_chunk_frame predict l st) as H.
    cbv zeta in H. by destruct H as (_ & Hs & Hd & Hf).
  - rewrite import_model_run. by repeat case_match.
  - rewrite export_model_run. cbv zeta. by repeat case_match.
Qed.

(** X17: invariants of an instance over any sequence of calls of its public
    methods, raising or not: the window size, the minimal chunk length and
    the meter instance never change; what was appended to the output
    datastore stays, in order, at the front of what is appended; no object
    of the store is removed, and each one is as it was or has its NaN
    readings replaced by [0.0]. *)
Theorem public_methods_invariants {Model : Type}
    (fit : Model → ndarray → ndarray → Z → Z → result Model)
    (predict : Model → ndarray → result ndarray) (fmt : Z * Z)
    (cs : list method) (st : @State Model) :
  let st' := run_methods fit predict fmt cs st in
  sequence_length (self st') = sequence_length (self st) ∧
  MIN_CHUNK_LENGTH (self st') = MIN_CHUNK_LENGTH (self st) ∧
  meter_metadata (self st') = meter_metadata (self st) ∧
  appended (output_datastore st)
  `prefix_of` appended (output_datastore st') ∧
  objects_kept_or_filled st st'.
Proof.
  unfold run_methods. revert st.
  induction cs as [|c cs IH]; intros st; cbn [foldl].
  - split_and!; try done. apply objects_kept_or_filled_refl.
  - pose proof (run_method_inv fit predict fmt c st) as H1.
    cbv zeta in H1. destruct H1 as (Hs1 & Hm1 & Hmm1 & Ha1 & Ho1).
    specialize (IH (run_method fit predict fmt c st)). cbv zeta in IH.
    destruct IH as (Hs & Hm & Hmm & Ha & Ho).
    rewrite Hs, Hm, Hmm. split_and!; try done.
    + by etrans.
    + by eapply objects_kept_or_filled_trans.
Qed.

(** ** A scale taken from a chunk without a reading *)


